(** * vmcheck: timing probes for hypervisor detection

    A shallow embedding of [vmcheck/main.c].  The driver reads hardware
    counters (RDTSC, the TSC and APERF model-specific registers), issues
    CPUID between the reads and turns the measured tick counts into three
    verdicts stored in the global [testResults].

    Modelling choices:
    - a [DWORD64] is a [Z] in [0, 2^64) with the wrap-around written out;
    - the hardware and the kernel are a [Platform]: an oracle giving the value
      of every counter read, plus the answers of the processor enumeration;
    - the mutable state is a [World]: the global [testResults], the calling
      thread's affinity, IRQL and interrupt flag, the debug log, and the
      history of hardware events issued so far;
    - the unsigned division by a zero divisor raises the processor's divide
      error and the function never returns: [DivideError]. *)

From Stdlib Require Import ZArith NArith List String Ascii Bool Lia DecimalString.
Import ListNotations.
Open Scope Z_scope.

(** ** Machine integers *)

Definition wrap64 (x : Z) : Z := x mod 2 ^ 64.
Definition wrap32 (x : Z) : Z := x mod 2 ^ 32.

Definition add64 (a b : Z) : Z := wrap64 (a + b).
Definition sub64 (a b : Z) : Z := wrap64 (a - b).
Definition mul64 (a b : Z) : Z := wrap64 (a * b).
Definition shl64 (a n : Z) : Z := wrap64 (Z.shiftl a n).

(** ** Constants of main.c and of the kernel headers *)

Definition IA32_MPERF_MSR : Z := 0xE7.
Definition IA32_APERF_MSR : Z := 0xE8.
Definition IA32_TIME_STAMP_COUNTER : Z := 0x10.

Definition NTSTATUS := Z.
Definition STATUS_SUCCESS : NTSTATUS := 0.
(** [NT_SUCCESS(s)] is [((NTSTATUS)(s)) >= 0] on the signed 32-bit status. *)
Definition NT_SUCCESS (status : NTSTATUS) : bool := 0 <=? status.

Definition KIRQL := Z.
Definition PASSIVE_LEVEL : KIRQL := 0.
(** amd64 value of wdm.h. *)
Definition HIGH_LEVEL : KIRQL := 15.
Definition ALL_PROCESSOR_GROUPS : Z := 0xffff.

(** ** Data model *)

Record TestResults := mkTestResults {
  RdtscCalculated : Z;
  RdtscFail : bool;
  TimestampCalculated : Z;
  TimestampFail : bool;
  AperfCalculated : Z;
  AperfFail : bool
}.

(** The global [testResults] has static storage: all fields start at zero. *)
Definition zeroTestResults : TestResults :=
  mkTestResults 0 false 0 false 0 false.

Record PROCESSOR_NUMBER := mkProcessorNumber {
  pnGroup : Z;
  pnNumber : Z;
  pnReserved : Z
}.

Record GROUP_AFFINITY := mkGroupAffinity {
  gaMask : Z;
  gaGroup : Z;
  gaReserved : Z * Z * Z
}.

(** Where a counter value comes from: the RDTSC instruction or RDMSR of a
    given register. *)
Inductive Counter :=
| Tsc
| Msr (register : Z).

(** What the measured code does to the hardware, in program order. *)
Inductive Event :=
| EvRead (c : Counter)
| EvCpuid (leaf : Z)
| EvDelay (interval : Z).

(** A call of the [Log] macro: the format string it is given, with its
    arguments. *)
Inductive LogLine :=
| LoadedLine (build : string)
| LookupFailedLine
| ResultLine (probe : string) (calculated : Z) (fail : bool).

Definition newline : string := String "010"%char EmptyString.

Definition llu (z : Z) : string :=
  NilZero.string_of_uint (N.to_uint (Z.to_N z)).

(** The text [DbgPrintEx] receives, with the macro's ["[vmcheck] "] prefix. *)
Definition render (l : LogLine) : string :=
  ("[vmcheck] " ++
   match l with
   | LoadedLine build => "Loaded. Build on " ++ build ++ "." ++ newline
   | LookupFailedLine => "Failed to get processor number!" ++ newline
   | ResultLine probe calculated fail =>
       probe ++ " with CPUID: " ++ llu calculated ++
       " (" ++ (if fail then "fail" else "ok") ++ ")" ++ newline
   end)%string.

Definition is_failure_line (l : LogLine) : bool :=
  match l with LookupFailedLine => true | _ => false end.

Definition is_result_line (l : LogLine) : bool :=
  match l with ResultLine _ _ _ => true | _ => false end.

Definition count_lines (p : LogLine -> bool) (log : list LogLine) : nat :=
  List.length (List.filter p log).

(** ** The platform and the world *)

Record Platform := mkPlatform {
  (** value delivered by a read of counter [c] issued as hardware event
      number [n] of the run *)
  counter_value : Counter -> N -> Z;
  (** [KeQueryActiveProcessorCountEx(ALL_PROCESSOR_GROUPS)] *)
  ActiveProcessorCount : Z;
  (** [KeGetProcessorNumberFromIndex]: status and, on success, the number *)
  ProcessorNumberFromIndex : Z -> NTSTATUS * PROCESSOR_NUMBER;
  (** the [__DATE__] of the build *)
  BuildDate : string
}.

Record World := mkWorld {
  testResults : TestResults;
  Affinity : GROUP_AFFINITY;
  Irql : KIRQL;
  InterruptsEnabled : bool;
  DebugLog : list LogLine;      (* oldest line first *)
  Clock : N;                    (* hardware events issued so far *)
  History : list Event          (* most recent event first *)
}.

Definition set_testResults (r : TestResults) (w : World) : World :=
  mkWorld r (Affinity w) (Irql w) (InterruptsEnabled w)
          (DebugLog w) (Clock w) (History w).

Definition set_Affinity (a : GROUP_AFFINITY) (w : World) : World :=
  mkWorld (testResults w) a (Irql w) (InterruptsEnabled w)
          (DebugLog w) (Clock w) (History w).

Definition set_Irql (i : KIRQL) (w : World) : World :=
  mkWorld (testResults w) (Affinity w) i (InterruptsEnabled w)
          (DebugLog w) (Clock w) (History w).

Definition set_InterruptsEnabled (b : bool) (w : World) : World :=
  mkWorld (testResults w) (Affinity w) (Irql w) b
          (DebugLog w) (Clock w) (History w).

Definition append_log (l : LogLine) (w : World) : World :=
  mkWorld (testResults w) (Affinity w) (Irql w) (InterruptsEnabled w)
          (DebugLog w ++ [l]) (Clock w) (History w).

(** [issue evs w]: the events [evs] (most recent first) have happened. *)
Definition issue (evs : list Event) (w : World) : World :=
  mkWorld (testResults w) (Affinity w) (Irql w) (InterruptsEnabled w)
          (DebugLog w) (Clock w + N.of_nat (List.length evs))
          (evs ++ History w).

(** The part of the world that belongs to the calling thread. *)
Definition thread_context (w : World) : GROUP_AFFINITY * KIRQL * bool :=
  (Affinity w, Irql w, InterruptsEnabled w).

(** The world in which the loader calls [DriverEntry]. *)
Definition load_world (a : GROUP_AFFINITY) : World :=
  mkWorld zeroTestResults a PASSIVE_LEVEL true [] 0%N [].

(** ** Computations: state passing with the divide error *)

Inductive Outcome (A : Type) :=
| Done (a : A)
| DivideError.
Arguments Done {A} a.
Arguments DivideError {A}.

Definition M (A : Type) : Type := World -> Outcome (A * World).

Definition ret {A} (a : A) : M A := fun w => Done (a, w).

Definition bind {A B} (m : M A) (k : A -> M B) : M B :=
  fun w =>
    match m w with
    | Done (a, w') => k a w'
    | DivideError => DivideError
    end.

Declare Scope vm_scope.
Delimit Scope vm_scope with vm.
Notation "x <- m ;; k" := (bind m (fun x => k))
  (at level 61, m at next level, right associativity) : vm_scope.
Notation "m ;; k" := (bind m (fun _ => k))
  (at level 61, right associativity) : vm_scope.
Open Scope vm_scope.

Definition modify (f : World -> World) : M unit :=
  fun w => Done (tt, f w).

(** [a / b] on [DWORD64]. *)
Definition div64 (a b : Z) : M Z :=
  fun w => if b =? 0 then DivideError else Done (a / b, w).

(** Body of a [for (int i = 0; i < n; i++)] loop whose body does not read
    [i]: the local the loop updates is threaded through. *)
Fixpoint iterate {A} (n : nat) (body : A -> M A) (acc : A) : M A :=
  match n with
  | O => ret acc
  | S k => acc' <- body acc ;; iterate k body acc'
  end.

Section Driver.

Variable hw : Platform.

(** ** Intrinsics and kernel routines *)

Definition read_value (c : Counter) (n : N) : Z :=
  wrap64 (counter_value hw c n).

Definition read_counter (c : Counter) : M Z :=
  fun w => Done (read_value c (Clock w), issue [EvRead c] w).

Definition __rdtsc : M Z := read_counter Tsc.
Definition __readmsr (register : Z) : M Z := read_counter (Msr register).

(** [__cpuid(data, leaf)]: the four registers land in a local array that is
    never read. *)
Definition __cpuid (leaf : Z) : M unit := modify (issue [EvCpuid leaf]).

(** [KeDelayExecutionThread(KernelMode, FALSE, &waitTime)], status ignored. *)
Definition KeDelayExecutionThread (interval : Z) : M unit :=
  modify (issue [EvDelay interval]).

Definition _disable : M unit := modify (set_InterruptsEnabled false).
Definition _enable : M unit := modify (set_InterruptsEnabled true).

(** [KeRaiseIrql(NewIrql, &OldIrql)]: yields the IRQL it replaces. *)
Definition KeRaiseIrql (NewIrql : KIRQL) : M KIRQL :=
  fun w => Done (Irql w, set_Irql NewIrql w).

Definition KeLowerIrql (NewIrql : KIRQL) : M unit := modify (set_Irql NewIrql).

(** [KeSetSystemGroupAffinityThread(&Affinity, &PreviousAffinity)]: yields
    the affinity it replaces. *)
Definition KeSetSystemGroupAffinityThread (a : GROUP_AFFINITY)
  : M GROUP_AFFINITY :=
  fun w => Done (Affinity w, set_Affinity a w).

(** [KeRevertToUserGroupAffinityThread(&PreviousAffinity)]. *)
Definition KeRevertToUserGroupAffinityThread (previous : GROUP_AFFINITY)
  : M unit :=
  modify (set_Affinity previous).

Definition KeQueryActiveProcessorCountEx (group : Z) : M Z :=
  ret (wrap32 (ActiveProcessorCount hw)).

Definition KeGetProcessorNumberFromIndex (index : Z)
  : M (NTSTATUS * PROCESSOR_NUMBER) :=
  ret (ProcessorNumberFromIndex hw index).

Definition Log (l : LogLine) : M unit := modify (append_log l).

Definition get_results : M TestResults := fun w => Done (testResults w, w).

Definition update_results (f : TestResults -> TestResults) : M unit :=
  modify (fun w => set_testResults (f (testResults w)) w).

(** ** main.c *)

(** Lines 68-70: [calculated = 100000 * total / calibration] and the two
    stores. *)
Definition RdtscClassify (total calibration : Z) : M unit :=
  calculated <- div64 (mul64 100000 total) calibration ;;
  update_results (fun r =>
    mkTestResults calculated (RdtscFail r)
                  (TimestampCalculated r) (TimestampFail r)
                  (AperfCalculated r) (AperfFail r)) ;;
  update_results (fun r =>
    mkTestResults (RdtscCalculated r) (calculated >? 200)
                  (TimestampCalculated r) (TimestampFail r)
                  (AperfCalculated r) (AperfFail r)).

Definition RdtscTiming : M unit :=
  first <- __rdtsc ;;
  KeDelayExecutionThread (-10000000) ;;
  second <- __rdtsc ;;
  let calibration := sub64 second first in
  total <- iterate (Z.to_nat 25000) (fun total =>
             start <- __rdtsc ;;
             __cpuid 0 ;;
             stop <- __rdtsc ;;
             ret (add64 total (sub64 stop start))) 0 ;;
  RdtscClassify total calibration.

(** Lines 125-127. *)
Definition TimestampClassify (total calibration : Z) : M unit :=
  calculated <- div64 (mul64 100000 total) calibration ;;
  update_results (fun r =>
    mkTestResults (RdtscCalculated r) (RdtscFail r)
                  calculated (TimestampFail r)
                  (AperfCalculated r) (AperfFail r)) ;;
  update_results (fun r =>
    mkTestResults (RdtscCalculated r) (RdtscFail r)
                  (TimestampCalculated r) (calculated >? 300)
                  (AperfCalculated r) (AperfFail r)).

Definition TimestampTiming : M unit :=
  first <- __readmsr IA32_TIME_STAMP_COUNTER ;;
  KeDelayExecutionThread (-10000000) ;;
  second <- __readmsr IA32_TIME_STAMP_COUNTER ;;
  let calibration := sub64 second first in
  total <- iterate (Z.to_nat 25000) (fun total =>
             start <- __readmsr IA32_TIME_STAMP_COUNTER ;;
             __cpuid 0 ;;
             stop <- __readmsr IA32_TIME_STAMP_COUNTER ;;
             ret (add64 total (sub64 stop start))) 0 ;;
  TimestampClassify total calibration.

(** Lines 166-167: the two stores of [calculated]. *)
Definition AperfClassify (calculated : Z) : M unit :=
  update_results (fun r =>
    mkTestResults (RdtscCalculated r) (RdtscFail r)
                  (TimestampCalculated r) (TimestampFail r)
                  calculated (AperfFail r)) ;;
  update_results (fun r =>
    mkTestResults (RdtscCalculated r) (RdtscFail r)
                  (TimestampCalculated r) (TimestampFail r)
                  (AperfCalculated r) (calculated <? 10000)).

Definition AperfTiming : M unit :=
  before <- __readmsr IA32_APERF_MSR ;;
  let start := shl64 before 32 in
  __cpuid 1 ;;
  after <- __readmsr IA32_APERF_MSR ;;
  let stop := shl64 after 32 in
  let calculated := sub64 stop start in
  AperfClassify calculated.

Definition PerformTests : M unit :=
  numberOfProcessors <- KeQueryActiveProcessorCountEx ALL_PROCESSOR_GROUPS ;;
  lookup <- KeGetProcessorNumberFromIndex (wrap32 (numberOfProcessors - 1)) ;;
  let (status, processorNumber) := lookup in
  if negb (NT_SUCCESS status) then
    Log LookupFailedLine
  else
    let affinity :=
      mkGroupAffinity (shl64 1 (pnNumber processorNumber))
                      (pnGroup processorNumber) (0, 0, 0) in
    oldAffinity <- KeSetSystemGroupAffinityThread affinity ;;
    originalIrql <- KeRaiseIrql HIGH_LEVEL ;;
    _disable ;;
    RdtscTiming ;;
    TimestampTiming ;;
    AperfTiming ;;
    _enable ;;
    KeLowerIrql originalIrql ;;
    KeRevertToUserGroupAffinityThread oldAffinity.

Definition PrintResults : M unit :=
  r <- get_results ;;
  Log (ResultLine "RDTSC" (RdtscCalculated r) (RdtscFail r)) ;;
  Log (ResultLine "MSR TIMESTAMP" (TimestampCalculated r) (TimestampFail r)) ;;
  Log (ResultLine "MSR APERF" (AperfCalculated r) (AperfFail r)).

Definition DriverEntry (dummy1 dummy2 : Z) : M NTSTATUS :=
  Log (LoadedLine (BuildDate hw)) ;;
  PerformTests ;;
  PrintResults ;;
  ret STATUS_SUCCESS.

End Driver.

(** ** Derived notions used by the statements *)

(** The two fields of [testResults] that belong to one probe. *)
Definition RdtscResult (w : World) : Z * bool :=
  (RdtscCalculated (testResults w), RdtscFail (testResults w)).
Definition TimestampResult (w : World) : Z * bool :=
  (TimestampCalculated (testResults w), TimestampFail (testResults w)).
Definition AperfResult (w : World) : Z * bool :=
  (AperfCalculated (testResults w), AperfFail (testResults w)).

(** The calibration delta of a ratio probe started at event number [n]: the
    first read is event [n], the delay event [n + 1], the second read event
    [n + 2]. *)
Definition calibration_delta (hw : Platform) (c : Counter) (n : N) : Z :=
  sub64 (read_value hw c (n + 2)) (read_value hw c n).

(** Events of [n] rounds of the measuring loop on counter [c], most recent
    first. *)
Fixpoint loop_events (c : Counter) (n : nat) : list Event :=
  match n with
  | O => []
  | S k => loop_events c k ++ [EvRead c; EvCpuid 0; EvRead c]
  end.

(** The [total] the measuring loop leaves after [n] rounds on counter [c],
    when its first read is event number [clock]: each round is a read, a
    CPUID and a read. *)
Fixpoint loop_total (hw : Platform) (c : Counter) (n : nat) (clock : N)
                    (total : Z) : Z :=
  match n with
  | O => total
  | S k =>
      loop_total hw c k (clock + 3)
        (add64 total
           (sub64 (read_value hw c (clock + 2)) (read_value hw c clock)))
  end.

(** The [total] of a ratio probe started at event number [n]. *)
Definition probe_total (hw : Platform) (c : Counter) (n : N) : Z :=
  loop_total hw c (Z.to_nat 25000) (n + 3) 0.

(** Events of a whole ratio probe on counter [c]. *)
Definition probe_events (c : Counter) : list Event :=
  loop_events c (Z.to_nat 25000)
    ++ [EvRead c; EvDelay (-10000000); EvRead c].

Definition aperf_events : list Event :=
  [EvRead (Msr IA32_APERF_MSR); EvCpuid 1; EvRead (Msr IA32_APERF_MSR)].

(** Number of hardware events of one ratio probe. *)
Definition probe_span : N := 75003.

(** The processor lookup of [PerformTests] and whether it succeeds. *)
Definition processor_lookup (hw : Platform) : NTSTATUS * PROCESSOR_NUMBER :=
  ProcessorNumberFromIndex hw (wrap32 (wrap32 (ActiveProcessorCount hw) - 1)).

Definition lookup_succeeds (hw : Platform) : bool :=
  NT_SUCCESS (fst (processor_lookup hw)).

(** What the three classification steps leave in [testResults]. *)
Definition store_rdtsc (calculated : Z) (r : TestResults) : TestResults :=
  mkTestResults calculated (calculated >? 200)
                (TimestampCalculated r) (TimestampFail r)
                (AperfCalculated r) (AperfFail r).

Definition store_timestamp (calculated : Z) (r : TestResults) : TestResults :=
  mkTestResults (RdtscCalculated r) (RdtscFail r)
                calculated (calculated >? 300)
                (AperfCalculated r) (AperfFail r).

Definition store_aperf (calculated : Z) (r : TestResults) : TestResults :=
  mkTestResults (RdtscCalculated r) (RdtscFail r)
                (TimestampCalculated r) (TimestampFail r)
                calculated (calculated <? 10000).

(** [calculated] of [AperfTiming] started at event number [n]: the reads are
    events [n] and [n + 2]. *)
Definition aperf_calculated (hw : Platform) (n : N) : Z :=
  sub64 (shl64 (read_value hw (Msr IA32_APERF_MSR) (n + 2)) 32)
        (shl64 (read_value hw (Msr IA32_APERF_MSR) n) 32).

(** [calculated] of a ratio probe on counter [c] started at event [n]. *)
Definition probe_ratio (hw : Platform) (c : Counter) (n : N) : Z :=
  mul64 100000 (probe_total hw c n) / calibration_delta hw c n.

(** [testResults] after the three probes, the first started at event [n]. *)
Definition measured_results (hw : Platform) (n : N) (r : TestResults)
  : TestResults :=
  store_aperf (aperf_calculated hw (n + probe_span + probe_span))
    (store_timestamp
       (probe_ratio hw (Msr IA32_TIME_STAMP_COUNTER) (n + probe_span))
       (store_rdtsc (probe_ratio hw Tsc n) r)).

(** Events of the three probes, most recent first. *)
Definition test_events : list Event :=
  aperf_events
    ++ probe_events (Msr IA32_TIME_STAMP_COUNTER)
    ++ probe_events Tsc.

(** Both calibration deltas of a run started at event [n] are non-zero. *)
Definition calibrated (hw : Platform) (n : N) : bool :=
  negb (calibration_delta hw Tsc n =? 0)
  && negb (calibration_delta hw (Msr IA32_TIME_STAMP_COUNTER)
                             (n + probe_span) =? 0).

(** The three result lines of [PrintResults]. *)
Definition result_lines (r : TestResults) : list LogLine :=
  [ResultLine "RDTSC" (RdtscCalculated r) (RdtscFail r);
   ResultLine "MSR TIMESTAMP" (TimestampCalculated r) (TimestampFail r);
   ResultLine "MSR APERF" (AperfCalculated r) (AperfFail r)].

(** The world after the lines [ls] were logged, in that order. *)
Definition logged (ls : list LogLine) (w : World) : World :=
  mkWorld (testResults w) (Affinity w) (Irql w) (InterruptsEnabled w)
          (DebugLog w ++ ls) (Clock w) (History w).

(** [PerformTests] returns: the lookup fails, or no probe divides by zero. *)
Definition runs_to_completion (hw : Platform) (w : World) : bool :=
  negb (lookup_succeeds hw) || calibrated hw (Clock w).

(** ** Sample platforms and worlds *)

Definition STATUS_INVALID_PARAMETER : NTSTATUS := -1073741811.

Definition all_eight : GROUP_AFFINITY := mkGroupAffinity 0xff 0 (0, 0, 0).

(** A machine whose counters gain 40 ticks per event and 3,000,000,000 over
    each one-second delay (events 1 and 75004 of a run). *)
Definition bare_metal : Platform :=
  mkPlatform
    (fun _ n =>
       40 * Z.of_N n
       + (if (1 <? n)%N then 3000000000 else 0)
       + (if (75004 <? n)%N then 3000000000 else 0))
    8
    (fun index => (STATUS_SUCCESS, mkProcessorNumber 0 index 0))
    "Jan  1 2024".

(** The same machine when the processor lookup is refused. *)
Definition lookup_refused : Platform :=
  mkPlatform (counter_value bare_metal) 8
    (fun _ => (STATUS_INVALID_PARAMETER, mkProcessorNumber 0 0 0))
    "Jan  1 2024".

(** A machine whose counters never move. *)
Definition frozen_clock : Platform :=
  mkPlatform (fun _ _ => 0) 8
    (fun index => (STATUS_SUCCESS, mkProcessorNumber 0 index 0))
    "Jan  1 2024".

(** APERF reads 0 at the first event and 15000 afterwards. *)
Definition aperf_0_15000 : Platform :=
  mkPlatform (fun _ n => if (n =? 0)%N then 0 else 15000) 8
    (fun index => (STATUS_SUCCESS, mkProcessorNumber 0 index 0))
    "Jan  1 2024".

(** ** Counting hardware events *)

Definition Counter_eqb (a b : Counter) : bool :=
  match a, b with
  | Tsc, Tsc => true
  | Msr x, Msr y => x =? y
  | _, _ => false
  end.

Definition is_read (e : Event) : bool :=
  match e with EvRead _ => true | _ => false end.

Definition is_read_of (c : Counter) (e : Event) : bool :=
  match e with EvRead c' => Counter_eqb c c' | _ => false end.

Definition is_cpuid (e : Event) : bool :=
  match e with EvCpuid _ => true | _ => false end.

Definition is_cpuid_leaf (leaf : Z) (e : Event) : bool :=
  match e with EvCpuid l => l =? leaf | _ => false end.

Definition is_delay (e : Event) : bool :=
  match e with EvDelay _ => true | _ => false end.

Definition count_events (p : Event -> bool) (evs : list Event) : Z :=
  Z.of_nat (List.length (List.filter p evs)).

(** The world in which the probes of [PerformTests] start: the thread is
    pinned to processor [pn], at [HIGH_LEVEL], with interrupts off. *)
Definition isolated (pn : PROCESSOR_NUMBER) (w : World) : World :=
  mkWorld (testResults w)
          (mkGroupAffinity (2 ^ pnNumber pn) (pnGroup pn) (0, 0, 0))
          HIGH_LEVEL false (DebugLog w) (Clock w) (History w).

(** A [DWORD64] value. *)
Definition in_range64 (x : Z) : Prop := 0 <= x < 2 ^ 64.

(** Reduce the projections of a world built by the setters, and nothing
    else: the event lists of the probes stay folded. *)
Ltac project_world :=
  cbn [testResults Affinity Irql InterruptsEnabled DebugLog Clock History
       set_testResults set_Affinity set_Irql set_InterruptsEnabled
       append_log issue].

(** ** Basic facts: machine arithmetic *)

Lemma wrap64_range (x : Z) : 0 <= wrap64 x < 2 ^ 64.
Proof. unfold wrap64. apply Z.mod_pos_bound. lia. Qed.

Lemma wrap64_small (x : Z) : 0 <= x < 2 ^ 64 -> wrap64 x = x.
Proof. intros H. unfold wrap64. apply Z.mod_small. exact H. Qed.

Lemma shl64_32_multiple (a : Z) : (2 ^ 32 | shl64 a 32).
Proof.
  unfold shl64, wrap64.
  rewrite Z.shiftl_mul_pow2 by lia.
  exists (a mod 2 ^ 32).
  replace (2 ^ 64) with (2 ^ 32 * 2 ^ 32) by reflexivity.
  rewrite Zmult_mod_distr_r. reflexivity.
Qed.

Lemma sub64_multiple (a b : Z) :
  (2 ^ 32 | a) -> (2 ^ 32 | b) -> (2 ^ 32 | sub64 a b).
Proof.
  intros Ha Hb. unfold sub64, wrap64.
  assert (Hd : (2 ^ 32 | a - b)) by (apply Z.divide_sub_r; assumption).
  destruct Hd as [k Hk].
  rewrite (Z.mod_eq (a - b) (2 ^ 64)) by lia.
  exists (k - 2 ^ 32 * ((a - b) / 2 ^ 64)).
  rewrite Hk.
  replace (2 ^ 64) with (2 ^ 32 * 2 ^ 32) by reflexivity.
  ring.
Qed.

(** A [DWORD64] that is a multiple of [2^32] is zero or at least [2^32]. *)
Lemma multiple_zero_or_large (x : Z) :
  0 <= x -> (2 ^ 32 | x) -> x = 0 \/ 2 ^ 32 <= x.
Proof.
  intros Hx [k Hk]. subst x.
  destruct (Z.eq_dec k 0) as [->|Hne]; [left; reflexivity|right].
  assert (1 <= k) by nia. nia.
Qed.

(** ** Basic facts: computations *)

Lemma bind_done {A B} (m : M A) (k : A -> M B) (w w' : World) (a : A) :
  m w = Done (a, w') -> bind m k w = k a w'.
Proof. intros H. unfold bind. rewrite H. reflexivity. Qed.

Lemma bind_error {A B} (m : M A) (k : A -> M B) (w : World) :
  m w = DivideError -> bind m k w = DivideError.
Proof. intros H. unfold bind. rewrite H. reflexivity. Qed.

Lemma issue_issue (later earlier : list Event) (w : World) :
  issue later (issue earlier w) = issue (later ++ earlier) w.
Proof.
  unfold issue. simpl. rewrite length_app, app_assoc.
  f_equal. lia.
Qed.

Lemma issue_nil (w : World) : issue [] w = w.
Proof. destruct w. unfold issue. simpl. f_equal. lia. Qed.

Lemma length_loop_events (c : Counter) (n : nat) :
  List.length (loop_events c n) = (3 * n)%nat.
Proof.
  induction n as [|n IH]; simpl; [reflexivity|].
  rewrite length_app, IH. simpl. lia.
Qed.

Lemma length_probe_events (c : Counter) :
  N.of_nat (List.length (probe_events c)) = probe_span.
Proof.
  unfold probe_events, probe_span.
  rewrite length_app, length_loop_events.
  change (List.length [EvRead c; EvDelay (-10000000); EvRead c]) with 3%nat.
  lia.
Qed.

Lemma Clock_issue_probe (c : Counter) (w : World) :
  Clock (issue (probe_events c) w) = (Clock w + probe_span)%N.
Proof. unfold issue, Clock. rewrite length_probe_events. reflexivity. Qed.

(** ** The measuring loop and the probes *)

Lemma measuring_round (hw : Platform) (c : Counter) (total : Z) (w : World) :
  (start <- read_counter hw c ;;
   __cpuid 0 ;;
   stop <- read_counter hw c ;;
   ret (add64 total (sub64 stop start))) w
  = Done (add64 total
            (sub64 (read_value hw c (Clock w + 2)) (read_value hw c (Clock w))),
          issue [EvRead c; EvCpuid 0; EvRead c] w).
Proof.
  unfold bind, read_counter, __cpuid, modify, ret.
  rewrite !issue_issue. simpl app.
  replace (Clock (issue [EvCpuid 0; EvRead c] w)) with (Clock w + 2)%N
    by (unfold issue; simpl; lia).
  reflexivity.
Qed.

Lemma measuring_loop (hw : Platform) (c : Counter) (n : nat) :
  forall (total : Z) (w : World),
    iterate n (fun total =>
                 start <- read_counter hw c ;;
                 __cpuid 0 ;;
                 stop <- read_counter hw c ;;
                 ret (add64 total (sub64 stop start))) total w
    = Done (loop_total hw c n (Clock w) total, issue (loop_events c n) w).
Proof.
  induction n as [|n IH]; intros total w.
  - simpl. unfold ret. rewrite issue_nil. reflexivity.
  - cbn [iterate loop_total loop_events].
    rewrite (bind_done _ _ _ _ _ (measuring_round hw c total w)).
    rewrite IH, issue_issue.
    replace (Clock (issue [EvRead c; EvCpuid 0; EvRead c] w))
      with (Clock w + 3)%N by (unfold issue; simpl; lia).
    reflexivity.
Qed.

(** Both ratio probes: calibration, loop, then the classification [k]. *)
Lemma ratio_probe_eq (hw : Platform) (c : Counter) (k : Z -> Z -> M unit)
                     (w : World) :
  (first <- read_counter hw c ;;
   KeDelayExecutionThread (-10000000) ;;
   second <- read_counter hw c ;;
   let calibration := sub64 second first in
   total <- iterate (Z.to_nat 25000) (fun total =>
              start <- read_counter hw c ;;
              __cpuid 0 ;;
              stop <- read_counter hw c ;;
              ret (add64 total (sub64 stop start))) 0 ;;
   k total calibration) w
  = k (probe_total hw c (Clock w)) (calibration_delta hw c (Clock w))
      (issue (probe_events c) w).
Proof.
  unfold probe_total, probe_events, calibration_delta.
  generalize (Z.to_nat 25000); intros n.
  unfold bind at 1 2 3. unfold read_counter at 1 2.
  unfold KeDelayExecutionThread, modify.
  rewrite !issue_issue. cbv zeta.
  rewrite (bind_done _ _ _ _ _ (measuring_loop hw c n 0 _)).
  rewrite issue_issue.
  replace (Clock (issue ([EvDelay (-10000000)] ++ [EvRead c]) w))
    with (Clock w + 2)%N by (unfold issue; simpl; lia).
  replace (Clock (issue ([EvRead c] ++ [EvDelay (-10000000)] ++ [EvRead c]) w))
    with (Clock w + 3)%N by (unfold issue; simpl; lia).
  reflexivity.
Qed.

Lemma RdtscTiming_eq (hw : Platform) (w : World) :
  RdtscTiming hw w
  = RdtscClassify (probe_total hw Tsc (Clock w))
                  (calibration_delta hw Tsc (Clock w))
                  (issue (probe_events Tsc) w).
Proof. exact (ratio_probe_eq hw Tsc RdtscClassify w). Qed.

Lemma TimestampTiming_eq (hw : Platform) (w : World) :
  TimestampTiming hw w
  = TimestampClassify
      (probe_total hw (Msr IA32_TIME_STAMP_COUNTER) (Clock w))
      (calibration_delta hw (Msr IA32_TIME_STAMP_COUNTER) (Clock w))
      (issue (probe_events (Msr IA32_TIME_STAMP_COUNTER)) w).
Proof.
  exact (ratio_probe_eq hw (Msr IA32_TIME_STAMP_COUNTER) TimestampClassify w).
Qed.

(** ** The classification steps *)

Lemma RdtscClassify_eq (total calibration : Z) (w : World) :
  RdtscClassify total calibration w
  = if calibration =? 0 then DivideError
    else Done (tt, set_testResults
                     (store_rdtsc (mul64 100000 total / calibration)
                                  (testResults w)) w).
Proof.
  unfold RdtscClassify, bind, div64, update_results, modify.
  destruct (calibration =? 0); reflexivity.
Qed.

Lemma TimestampClassify_eq (total calibration : Z) (w : World) :
  TimestampClassify total calibration w
  = if calibration =? 0 then DivideError
    else Done (tt, set_testResults
                     (store_timestamp (mul64 100000 total / calibration)
                                      (testResults w)) w).
Proof.
  unfold TimestampClassify, bind, div64, update_results, modify.
  destruct (calibration =? 0); reflexivity.
Qed.

Lemma AperfClassify_eq (calculated : Z) (w : World) :
  AperfClassify calculated w
  = Done (tt, set_testResults (store_aperf calculated (testResults w)) w).
Proof. reflexivity. Qed.

Lemma AperfTiming_eq (hw : Platform) (w : World) :
  AperfTiming hw w
  = Done (tt, set_testResults
                (store_aperf (aperf_calculated hw (Clock w)) (testResults w))
                (issue aperf_events w)).
Proof.
  unfold AperfTiming, __readmsr, __cpuid, modify.
  unfold bind at 1 2 3. unfold read_counter at 1 2.
  rewrite !issue_issue. cbv zeta. rewrite AperfClassify_eq.
  replace (Clock (issue ([EvCpuid 1] ++ [EvRead (Msr IA32_APERF_MSR)]) w))
    with (Clock w + 2)%N by (unfold issue; simpl; lia).
  reflexivity.
Qed.

(** ** PerformTests and DriverEntry, path by path *)

Lemma World_ext (w w' : World) :
  testResults w = testResults w' ->
  Affinity w = Affinity w' ->
  Irql w = Irql w' ->
  InterruptsEnabled w = InterruptsEnabled w' ->
  DebugLog w = DebugLog w' ->
  Clock w = Clock w' ->
  History w = History w' ->
  w = w'.
Proof. destruct w, w'; simpl; intros; subst; reflexivity. Qed.


Lemma PerformTests_lookup_failed (hw : Platform) (w : World) :
  lookup_succeeds hw = false ->
  PerformTests hw w = Done (tt, append_log LookupFailedLine w).
Proof.
  unfold lookup_succeeds. intros Hfail.
  unfold PerformTests, KeQueryActiveProcessorCountEx,
         KeGetProcessorNumberFromIndex.
  unfold bind at 1 2. unfold ret.
  fold (processor_lookup hw).
  destruct (processor_lookup hw) as [status processorNumber].
  simpl in Hfail. rewrite Hfail. reflexivity.
Qed.

Lemma PerformTests_lookup_ok (hw : Platform) (w : World) :
  lookup_succeeds hw = true ->
  PerformTests hw w
  = if calibrated hw (Clock w)
    then Done (tt, set_InterruptsEnabled true
                     (set_testResults
                        (measured_results hw (Clock w) (testResults w))
                        (issue test_events w)))
    else DivideError.
Proof.
  unfold lookup_succeeds. intros Hok.
  unfold PerformTests, KeQueryActiveProcessorCountEx,
         KeGetProcessorNumberFromIndex.
  unfold bind at 1 2. unfold ret.
  fold (processor_lookup hw).
  destruct (processor_lookup hw) as [status processorNumber].
  simpl in Hok. rewrite Hok. cbn [negb].
  unfold KeSetSystemGroupAffinityThread, KeRaiseIrql, _disable, _enable,
         KeLowerIrql, KeRevertToUserGroupAffinityThread, modify.
  unfold bind at 1 2 3 4.
  rewrite RdtscTiming_eq, RdtscClassify_eq.
  unfold calibrated.
  cbn [Clock set_InterruptsEnabled set_Irql set_Affinity].
  destruct (calibration_delta hw Tsc (Clock w) =? 0); [reflexivity|].
  unfold bind at 1.
  rewrite TimestampTiming_eq, TimestampClassify_eq.
  replace (Clock (set_testResults _ (issue (probe_events Tsc) _)))
    with (Clock w + probe_span)%N
    by (unfold set_testResults, Clock at 1; rewrite Clock_issue_probe; reflexivity).
  destruct (calibration_delta hw (Msr IA32_TIME_STAMP_COUNTER)
                              (Clock w + probe_span) =? 0); [reflexivity|].
  unfold bind at 1.
  rewrite AperfTiming_eq.
  unfold bind.
  apply (f_equal (fun w' : World => Done (tt, w'))).
  unfold measured_results, test_events, probe_ratio.
  rewrite <- !issue_issue.
  apply World_ext; project_world; rewrite ?length_probe_events; reflexivity.
Qed.

Lemma PerformTests_divide_error (hw : Platform) (w : World) :
  runs_to_completion hw w = false -> PerformTests hw w = DivideError.
Proof.
  unfold runs_to_completion. intros H.
  apply orb_false_iff in H. destruct H as [Hl Hc].
  apply negb_false_iff in Hl.
  rewrite (PerformTests_lookup_ok hw w Hl), Hc. reflexivity.
Qed.

Lemma PrintResults_eq (w : World) :
  PrintResults w = Done (tt, logged (result_lines (testResults w)) w).
Proof.
  unfold PrintResults, get_results, Log, modify, bind.
  apply (f_equal (fun w' : World => Done (tt, w'))).
  apply World_ext; project_world; try reflexivity.
  unfold logged, result_lines. cbn [DebugLog].
  rewrite <- !app_assoc. reflexivity.
Qed.

Lemma DriverEntry_lookup_failed (hw : Platform) (dummy1 dummy2 : Z) (w : World) :
  lookup_succeeds hw = false ->
  DriverEntry hw dummy1 dummy2 w
  = Done (STATUS_SUCCESS,
          logged ([LoadedLine (BuildDate hw); LookupFailedLine]
                    ++ result_lines (testResults w)) w).
Proof.
  intros Hfail. unfold DriverEntry, Log, modify.
  unfold bind at 1 2.
  rewrite (PerformTests_lookup_failed hw _ Hfail).
  unfold bind. rewrite PrintResults_eq. unfold ret.
  apply (f_equal (fun w' : World => Done (STATUS_SUCCESS, w'))).
  apply World_ext; unfold logged; project_world; try reflexivity.
  rewrite <- !app_assoc. reflexivity.
Qed.

Lemma DriverEntry_lookup_ok (hw : Platform) (dummy1 dummy2 : Z) (w : World) :
  lookup_succeeds hw = true ->
  DriverEntry hw dummy1 dummy2 w
  = if calibrated hw (Clock w)
    then Done (STATUS_SUCCESS,
               logged (LoadedLine (BuildDate hw)
                         :: result_lines
                              (measured_results hw (Clock w) (testResults w)))
                 (set_InterruptsEnabled true
                    (set_testResults
                       (measured_results hw (Clock w) (testResults w))
                       (issue test_events w))))
    else DivideError.
Proof.
  intros Hok. unfold DriverEntry, Log, modify.
  unfold bind at 1 2.
  rewrite (PerformTests_lookup_ok hw _ Hok).
  project_world.
  destruct (calibrated hw (Clock w)); [|reflexivity].
  unfold bind. rewrite PrintResults_eq. unfold ret.
  apply (f_equal (fun w' : World => Done (STATUS_SUCCESS, w'))).
  apply World_ext; unfold logged; project_world; try reflexivity.
  rewrite <- !app_assoc. reflexivity.
Qed.

(** * The classification arithmetic *)

(** C1. For RdtscTiming and TimestampTiming the classification step is a
    pure function of the accumulated total and the calibration delta: it
    stores [(100000 * total) / calibration], computed on unsigned 64-bit
    integers, together with the verdict; started in any two worlds, or
    started again in the world it has left, it yields the same calculated
    ratio and the same fail flag. *)
Theorem ratio_classification_is_pure :
  forall (total calibration : Z) (w1 w2 : World),
    calibration <> 0 ->
    (exists w1' w2',
        RdtscClassify total calibration w1 = Done (tt, w1') /\
        RdtscClassify total calibration w2 = Done (tt, w2') /\
        RdtscCalculated (testResults w1')
          = (100000 * total) mod 2 ^ 64 / calibration /\
        RdtscResult w2' = RdtscResult w1' /\
        RdtscClassify total calibration w1' = Done (tt, w1')) /\
    (exists w1' w2',
        TimestampClassify total calibration w1 = Done (tt, w1') /\
        TimestampClassify total calibration w2 = Done (tt, w2') /\
        TimestampCalculated (testResults w1')
          = (100000 * total) mod 2 ^ 64 / calibration /\
        TimestampResult w2' = TimestampResult w1' /\
        TimestampClassify total calibration w1' = Done (tt, w1')) /\
    (0 <= total -> 100000 * total < 2 ^ 64 ->
     (100000 * total) mod 2 ^ 64 / calibration = 100000 * total / calibration).
Proof.
  intros total calibration w1 w2 Hne.
  apply Z.eqb_neq in Hne.
  split; [|split].
  - do 2 eexists.
    rewrite !RdtscClassify_eq, Hne.
    split; [reflexivity|]. split; [reflexivity|].
    split; [reflexivity|]. split; [reflexivity|].
    destruct w1 as [[] ? ? ? ? ? ?]. reflexivity.
  - do 2 eexists.
    rewrite !TimestampClassify_eq, Hne.
    split; [reflexivity|]. split; [reflexivity|].
    split; [reflexivity|]. split; [reflexivity|].
    destruct w1 as [[] ? ? ? ? ? ?]. reflexivity.
  - intros H0 H1. rewrite Z.mod_small by lia. reflexivity.
Qed.

Lemma ratio_classification_is_pure_witness :
  10000000 <> 0 /\
  exists w1',
    RdtscClassify 1250000 10000000 (load_world all_eight) = Done (tt, w1') /\
    RdtscCalculated (testResults w1') = 12500.
Proof.
  split; [lia|].
  destruct (ratio_classification_is_pure 1250000 10000000
              (load_world all_eight)
              (set_InterruptsEnabled false (load_world all_eight)))
    as [[w1' [w2' [H1 [_ [Hc _]]]]] _]; [lia|].
  exists w1'. split; [exact H1|]. rewrite Hc. reflexivity.
Defined.

(** C4. Both greater-than comparisons are strict: RdtscFail is set exactly
    when calculated > 200 and TimestampFail exactly when calculated > 300, so
    a ratio equal to the threshold passes; calibration = 1,000,000 and
    total = 2,000 give calculated = 200 and no failure. *)
Theorem ratio_at_threshold_passes :
  forall (total calibration : Z) (w : World),
    calibration <> 0 ->
    exists wr wt,
      RdtscClassify total calibration w = Done (tt, wr) /\
      TimestampClassify total calibration w = Done (tt, wt) /\
      (RdtscFail (testResults wr) = true
       <-> RdtscCalculated (testResults wr) > 200) /\
      (TimestampFail (testResults wt) = true
       <-> TimestampCalculated (testResults wt) > 300) /\
      (RdtscCalculated (testResults wr) = 200
       -> RdtscFail (testResults wr) = false) /\
      (TimestampCalculated (testResults wt) = 300
       -> TimestampFail (testResults wt) = false) /\
      (total = 2000 -> calibration = 1000000
       -> RdtscResult wr = (200, false)).
Proof.
  intros total calibration w Hne.
  apply Z.eqb_neq in Hne.
  do 2 eexists.
  rewrite RdtscClassify_eq, TimestampClassify_eq, Hne.
  split; [reflexivity|]. split; [reflexivity|].
  cbn [testResults set_testResults store_rdtsc store_timestamp
       RdtscCalculated RdtscFail TimestampCalculated TimestampFail].
  split; [|split; [|split; [|split]]].
  - rewrite Z.gtb_ltb, Z.ltb_lt. lia.
  - rewrite Z.gtb_ltb, Z.ltb_lt. lia.
  - intros ->. reflexivity.
  - intros ->. reflexivity.
  - intros -> ->. reflexivity.
Qed.

Lemma ratio_at_threshold_passes_witness :
  1000000 <> 0 /\
  (exists wr,
      RdtscClassify 2000 1000000 (load_world all_eight) = Done (tt, wr) /\
      RdtscResult wr = (200, false)) /\
  (exists wt,
      TimestampClassify 3000 1000000 (load_world all_eight) = Done (tt, wt) /\
      TimestampResult wt = (300, false)).
Proof.
  split; [lia|]. split.
  - destruct (ratio_at_threshold_passes 2000 1000000 (load_world all_eight))
      as [wr [wt [Hr [_ [_ [_ [_ [_ Hs]]]]]]]]; [lia|].
    exists wr. split; [exact Hr|]. apply Hs; reflexivity.
  - destruct (ratio_at_threshold_passes 3000 1000000 (load_world all_eight))
      as [wr [wt [_ [Ht [_ [_ [_ [Hb _]]]]]]]]; [lia|].
    exists wt. split; [exact Ht|].
    assert (Hc : TimestampCalculated (testResults wt) = 300).
    { rewrite TimestampClassify_eq in Ht. cbn in Ht.
      injection Ht as <-. reflexivity. }
    unfold TimestampResult. rewrite (Hb Hc), Hc. reflexivity.
Defined.

(** C5. Neither ratio probe guards its division: with a zero calibration
    delta the classification step, and with it the whole probe, ends in the
    divide error whatever the accumulated total; the ratio is stored only
    when the calibration delta is not zero. *)
Theorem zero_calibration_divides_by_zero :
  forall (hw : Platform) (total : Z) (w : World),
    RdtscClassify total 0 w = DivideError /\
    TimestampClassify total 0 w = DivideError /\
    (calibration_delta hw Tsc (Clock w) = 0
     <-> RdtscTiming hw w = DivideError) /\
    (calibration_delta hw (Msr IA32_TIME_STAMP_COUNTER) (Clock w) = 0
     <-> TimestampTiming hw w = DivideError) /\
    (forall calibration, calibration <> 0 ->
       exists wr wt,
         RdtscClassify total calibration w = Done (tt, wr) /\
         TimestampClassify total calibration w = Done (tt, wt)).
Proof.
  intros hw total w.
  split; [reflexivity|]. split; [reflexivity|].
  split; [|split].
  - rewrite RdtscTiming_eq, RdtscClassify_eq.
    destruct (Z.eqb_spec (calibration_delta hw Tsc (Clock w)) 0) as [E|E].
    + split; intros _; [reflexivity|exact E].
    + split; [intros H; contradiction|discriminate].
  - rewrite TimestampTiming_eq, TimestampClassify_eq.
    destruct (Z.eqb_spec
                (calibration_delta hw (Msr IA32_TIME_STAMP_COUNTER) (Clock w))
                0) as [E|E].
    + split; intros _; [reflexivity|exact E].
    + split; [intros H; contradiction|discriminate].
  - intros calibration Hne. apply Z.eqb_neq in Hne.
    do 2 eexists.
    rewrite RdtscClassify_eq, TimestampClassify_eq, Hne.
    split; reflexivity.
Qed.

Lemma zero_calibration_divides_by_zero_witness :
  calibration_delta frozen_clock Tsc (Clock (load_world all_eight)) = 0 /\
  RdtscTiming frozen_clock (load_world all_eight) = DivideError /\
  1000000 <> 0 /\
  exists wr,
    RdtscClassify 2000 1000000 (load_world all_eight) = Done (tt, wr).
Proof.
  destruct (zero_calibration_divides_by_zero
              frozen_clock 2000 (load_world all_eight))
    as [_ [_ [[Hr _] [_ Hdef]]]].
  split; [reflexivity|]. split; [apply Hr; reflexivity|].
  split; [lia|].
  destruct (Hdef 1000000) as [wr [wt [H _]]]; [lia|].
  exists wr. exact H.
Defined.

(** * The APERF probe *)

(** C10. The value AperfTiming stores in AperfCalculated is a multiple of
    2^32 within the 64-bit range: its low 32 bits are zero. *)
Theorem AperfCalculated_low_bits_zero :
  forall (hw : Platform) (w : World),
    exists w',
      AperfTiming hw w = Done (tt, w') /\
      0 <= AperfCalculated (testResults w') < 2 ^ 64 /\
      AperfCalculated (testResults w') mod 2 ^ 32 = 0 /\
      Z.land (AperfCalculated (testResults w')) (Z.ones 32) = 0.
Proof.
  intros hw w. eexists. rewrite AperfTiming_eq.
  split; [reflexivity|].
  cbn [testResults set_testResults store_aperf AperfCalculated].
  assert (Hd : (2 ^ 32 | aperf_calculated hw (Clock w))).
  { unfold aperf_calculated.
    apply sub64_multiple; apply shl64_32_multiple. }
  split; [apply wrap64_range|].
  assert (Hm : aperf_calculated hw (Clock w) mod 2 ^ 32 = 0).
  { apply Z.mod_divide; [lia|exact Hd]. }
  split; [exact Hm|].
  rewrite Z.land_ones by lia. exact Hm.
Qed.

(** The fail flag of the APERF probe only tells whether the two readings
    differ in their low 32 bits: calculated is zero or at least 2^32. *)
Lemma AperfTiming_fails_iff_zero (hw : Platform) (w : World) :
  exists w',
    AperfTiming hw w = Done (tt, w') /\
    (AperfFail (testResults w') = true
     <-> AperfCalculated (testResults w') = 0).
Proof.
  eexists. rewrite AperfTiming_eq. split; [reflexivity|].
  cbn [testResults set_testResults store_aperf AperfCalculated AperfFail].
  assert (Hd : (2 ^ 32 | aperf_calculated hw (Clock w))).
  { unfold aperf_calculated.
    apply sub64_multiple; apply shl64_32_multiple. }
  assert (Hr : 0 <= aperf_calculated hw (Clock w) < 2 ^ 64)
    by apply wrap64_range.
  destruct (multiple_zero_or_large _ (proj1 Hr) Hd) as [E|E];
    rewrite Z.ltb_lt; lia.
Qed.

(** The comparison of line 167 is [calculated < 10000], but the probe never
    compares a value near that boundary: what [AperfTiming] stores is 0 or
    at least 2^32, so it is never 9999 nor 10000. *)
Lemma AperfTiming_never_at_boundary (hw : Platform) (w : World) :
  exists w',
    AperfTiming hw w = Done (tt, w') /\
    AperfCalculated (testResults w') <> 10000 /\
    AperfCalculated (testResults w') <> 9999 /\
    AperfFail (testResults w')
    = (AperfCalculated (testResults w') <? 10000).
Proof.
  eexists. rewrite AperfTiming_eq. split; [reflexivity|].
  cbn [testResults set_testResults store_aperf AperfCalculated AperfFail].
  assert (Hd : (2 ^ 32 | aperf_calculated hw (Clock w))).
  { unfold aperf_calculated.
    apply sub64_multiple; apply shl64_32_multiple. }
  assert (Hr : 0 <= aperf_calculated hw (Clock w) < 2 ^ 64)
    by apply wrap64_range.
  destruct (multiple_zero_or_large _ (proj1 Hr) Hd) as [E|E].
  - rewrite E. repeat split; discriminate.
  - repeat split; lia.
Qed.

(** C2, as the code has it.  AperfTiming reads the APERF register, issues
    one CPUID with leaf 1 and reads the register again; each reading is
    shifted left by 32 bits as a 64-bit value before the subtraction, so
    calculated is the 64-bit difference of the shifted readings, and the
    probe fails when that is below 10000.  With readings 0 and 15000 the
    stored value is 15000 * 2^32 and the probe is not failed. *)
Theorem AperfTiming_shifted_difference :
  forall (hw : Platform) (w : World),
    exists w',
      AperfTiming hw w = Done (tt, w') /\
      History w'
        = EvRead (Msr IA32_APERF_MSR) :: EvCpuid 1 :: EvRead (Msr IA32_APERF_MSR) :: History w /\
      AperfCalculated (testResults w')
        = ((read_value hw (Msr IA32_APERF_MSR) (Clock w + 2) * 2 ^ 32) mod 2 ^ 64
           - (read_value hw (Msr IA32_APERF_MSR) (Clock w) * 2 ^ 32) mod 2 ^ 64)
          mod 2 ^ 64 /\
      AperfFail (testResults w')
        = (AperfCalculated (testResults w') <? 10000) /\
      (read_value hw (Msr IA32_APERF_MSR) (Clock w) = 0 ->
       read_value hw (Msr IA32_APERF_MSR) (Clock w + 2) = 15000 ->
       AperfResult w' = (15000 * 2 ^ 32, false)).
Proof.
  intros hw w. eexists. rewrite AperfTiming_eq.
  split; [reflexivity|].
  split; [reflexivity|].
  unfold AperfResult.
  cbn [testResults set_testResults store_aperf AperfCalculated AperfFail].
  assert (Hc : aperf_calculated hw (Clock w)
               = ((read_value hw (Msr IA32_APERF_MSR) (Clock w + 2) * 2 ^ 32) mod 2 ^ 64
                  - (read_value hw (Msr IA32_APERF_MSR) (Clock w) * 2 ^ 32) mod 2 ^ 64)
                 mod 2 ^ 64).
  { unfold aperf_calculated, sub64, shl64, wrap64, IA32_APERF_MSR.
    rewrite !Z.shiftl_mul_pow2 by lia. reflexivity. }
  split; [exact Hc|]. split; [reflexivity|].
  intros H0 H1. rewrite Hc, H0, H1. reflexivity.
Qed.

Lemma AperfTiming_shifted_difference_witness :
  read_value aperf_0_15000 (Msr IA32_APERF_MSR) (Clock (load_world all_eight)) = 0 /\
  read_value aperf_0_15000 (Msr IA32_APERF_MSR) (Clock (load_world all_eight) + 2)
    = 15000 /\
  exists w',
    AperfTiming aperf_0_15000 (load_world all_eight) = Done (tt, w') /\
    AperfResult w' = (64424509440000, false).
Proof.
  split; [reflexivity|]. split; [reflexivity|].
  destruct (AperfTiming_shifted_difference aperf_0_15000
              (load_world all_eight)) as [w' [Hrun [_ [_ [_ Hs]]]]].
  exists w'. split; [exact Hrun|].
  apply Hs; reflexivity.
Defined.

(** C2 as stated fails: with the counter reading 0 before and 15000 after
    the CPUID, calculated is not the raw difference 15000. *)
Lemma aperf_reading_15000_not_raw_difference :
  read_value aperf_0_15000 (Msr IA32_APERF_MSR) 0 = 0 /\
  read_value aperf_0_15000 (Msr IA32_APERF_MSR) 2 = 15000 /\
  exists w',
    AperfTiming aperf_0_15000 (load_world all_eight) = Done (tt, w') /\
    AperfCalculated (testResults w') = 64424509440000 /\
    AperfCalculated (testResults w') <> 15000 - 0.
Proof.
  split; [reflexivity|]. split; [reflexivity|].
  eexists. rewrite AperfTiming_eq.
  split; [reflexivity|]. split; [vm_compute; reflexivity|].
  vm_compute. discriminate.
Qed.

(** * The test run *)

(** C6. When the processor-number lookup fails, PerformTests logs the
    failure line and returns without running a probe: testResults, the
    thread's affinity, the IRQL and the interrupt flag are as before, and no
    counter was read and no CPUID issued. *)
Theorem failed_lookup_runs_no_probe :
  forall (hw : Platform) (w : World),
    lookup_succeeds hw = false ->
    exists w',
      PerformTests hw w = Done (tt, w') /\
      DebugLog w' = DebugLog w ++ [LookupFailedLine] /\
      testResults w' = testResults w /\
      Affinity w' = Affinity w /\
      Irql w' = Irql w /\
      InterruptsEnabled w' = InterruptsEnabled w /\
      History w' = History w /\
      Clock w' = Clock w.
Proof.
  intros hw w Hfail. eexists.
  rewrite (PerformTests_lookup_failed hw w Hfail).
  split; [reflexivity|]. project_world. repeat split.
Qed.

Lemma failed_lookup_runs_no_probe_witness :
  lookup_succeeds lookup_refused = false /\
  exists w',
    PerformTests lookup_refused (load_world all_eight) = Done (tt, w') /\
    testResults w' = zeroTestResults /\
    History w' = [].
Proof.
  split; [reflexivity|].
  destruct (failed_lookup_runs_no_probe lookup_refused (load_world all_eight))
    as [w' [Hrun [_ [Hr [_ [_ [_ [Hh _]]]]]]]]; [reflexivity|].
  exists w'. split; [exact Hrun|]. split; assumption.
Defined.

(** C7, as the code has it.  On the early-abort path PerformTests itself
    logs exactly one line, the failure line, and no result line.
    DriverEntry calls PrintResults all the same, so the whole run logs the
    load line, the failure line and then the three result lines, which
    report the untouched testResults: one failure line and three result
    lines. *)
Theorem aborted_run_log :
  forall (hw : Platform) (dummy1 dummy2 : Z) (w : World),
    lookup_succeeds hw = false ->
    (exists wp,
        PerformTests hw w = Done (tt, wp) /\
        DebugLog wp = DebugLog w ++ [LookupFailedLine]) /\
    (exists w',
        DriverEntry hw dummy1 dummy2 w = Done (STATUS_SUCCESS, w') /\
        testResults w' = testResults w /\
        DebugLog w'
          = DebugLog w
              ++ [LoadedLine (BuildDate hw); LookupFailedLine;
                  ResultLine "RDTSC" (RdtscCalculated (testResults w))
                             (RdtscFail (testResults w));
                  ResultLine "MSR TIMESTAMP"
                             (TimestampCalculated (testResults w))
                             (TimestampFail (testResults w));
                  ResultLine "MSR APERF" (AperfCalculated (testResults w))
                             (AperfFail (testResults w))] /\
        count_lines is_failure_line (DebugLog w')
          = (count_lines is_failure_line (DebugLog w) + 1)%nat /\
        count_lines is_result_line (DebugLog w')
          = (count_lines is_result_line (DebugLog w) + 3)%nat).
Proof.
  intros hw dummy1 dummy2 w Hfail. split.
  - eexists. rewrite (PerformTests_lookup_failed hw w Hfail).
    split; reflexivity.
  - eexists. rewrite (DriverEntry_lookup_failed hw dummy1 dummy2 w Hfail).
    split; [reflexivity|]. split; [reflexivity|].
    unfold logged, result_lines. cbn [DebugLog app].
    split; [reflexivity|].
    unfold count_lines. rewrite !filter_app, !length_app.
    split; reflexivity.
Qed.

Lemma aborted_run_log_witness :
  lookup_succeeds lookup_refused = false /\
  exists w',
    DriverEntry lookup_refused 0 0 (load_world all_eight)
      = Done (STATUS_SUCCESS, w') /\
    DebugLog w'
      = [LoadedLine "Jan  1 2024"; LookupFailedLine;
         ResultLine "RDTSC" 0 false;
         ResultLine "MSR TIMESTAMP" 0 false;
         ResultLine "MSR APERF" 0 false].
Proof.
  split; [reflexivity|].
  destruct (aborted_run_log lookup_refused 0 0 (load_world all_eight))
    as [_ [w' [Hrun [_ [Hlog _]]]]]; [reflexivity|].
  exists w'. split; [exact Hrun|]. rewrite Hlog. reflexivity.
Defined.

(** C7 as stated fails: with the lookup refused, the sink receives three
    result lines after the failure line. *)
Lemma aborted_run_has_result_lines :
  lookup_succeeds lookup_refused = false /\
  exists w',
    DriverEntry lookup_refused 0 0 (load_world all_eight)
      = Done (STATUS_SUCCESS, w') /\
    count_lines is_failure_line (DebugLog w') = 1%nat /\
    count_lines is_result_line (DebugLog w') = 3%nat /\
    count_lines is_result_line (DebugLog w') <> 0%nat /\
    List.map render (DebugLog w')
      = ["[vmcheck] Loaded. Build on Jan  1 2024." ++ newline;
         "[vmcheck] Failed to get processor number!" ++ newline;
         "[vmcheck] RDTSC with CPUID: 0 (ok)" ++ newline;
         "[vmcheck] MSR TIMESTAMP with CPUID: 0 (ok)" ++ newline;
         "[vmcheck] MSR APERF with CPUID: 0 (ok)" ++ newline]%string.
Proof.
  split; [reflexivity|].
  eexists.
  rewrite (DriverEntry_lookup_failed lookup_refused 0 0 _ eq_refl).
  split; [reflexivity|].
  split; [reflexivity|]. split; [reflexivity|].
  split; [vm_compute; discriminate|reflexivity].
Qed.

(** The one call of [PerformTests] is in [DriverEntry], right after the load
    line is logged: it is entered with the affinity, the IRQL and the
    interrupt flag with which the loader entered [DriverEntry]. *)
Lemma DriverEntry_enters_PerformTests
      (hw : Platform) (dummy1 dummy2 : Z) (w : World) :
  DriverEntry hw dummy1 dummy2 w
  = (PerformTests hw ;; PrintResults ;; ret STATUS_SUCCESS)
      (append_log (LoadedLine (BuildDate hw)) w) /\
  thread_context (append_log (LoadedLine (BuildDate hw)) w)
  = thread_context w.
Proof.
  split; [|reflexivity].
  unfold DriverEntry, Log, modify. unfold bind at 1. reflexivity.
Qed.

(** C8. After every call of PerformTests that returns, whether the three
    probes ran or the processor lookup failed, the thread's group affinity,
    the IRQL and the interrupt flag have the values they had at the call.
    PerformTests is called with interrupts enabled, as DriverEntry is
    entered by the loader.  The call returns when the lookup fails, and
    when it succeeds and no probe divides by zero. *)
Theorem PerformTests_restores_context :
  forall (hw : Platform) (w : World),
    InterruptsEnabled w = true ->
    (forall w',
        PerformTests hw w = Done (tt, w') ->
        Affinity w' = Affinity w /\
        Irql w' = Irql w /\
        InterruptsEnabled w' = InterruptsEnabled w) /\
    (lookup_succeeds hw = false ->
     exists w', PerformTests hw w = Done (tt, w')) /\
    (lookup_succeeds hw = true ->
     calibrated hw (Clock w) = true ->
     exists w', PerformTests hw w = Done (tt, w')).
Proof.
  intros hw w Hon. split; [|split].
  - intros w' Hrun.
    destruct (lookup_succeeds hw) eqn:Hl.
    + rewrite (PerformTests_lookup_ok hw w Hl) in Hrun.
      destruct (calibrated hw (Clock w)); [|discriminate].
      injection Hrun as <-. project_world.
      rewrite Hon. repeat split.
    + rewrite (PerformTests_lookup_failed hw w Hl) in Hrun.
      injection Hrun as <-. project_world. repeat split.
  - intros Hl. eexists. apply (PerformTests_lookup_failed hw w Hl).
  - intros Hl Hc. eexists.
    rewrite (PerformTests_lookup_ok hw w Hl), Hc. reflexivity.
Qed.

Lemma PerformTests_restores_context_witness :
  InterruptsEnabled (load_world all_eight) = true /\
  lookup_succeeds bare_metal = true /\
  calibrated bare_metal (Clock (load_world all_eight)) = true /\
  lookup_succeeds lookup_refused = false /\
  (exists w',
      PerformTests bare_metal (load_world all_eight) = Done (tt, w') /\
      thread_context w' = (all_eight, PASSIVE_LEVEL, true)) /\
  (exists w',
      PerformTests lookup_refused (load_world all_eight) = Done (tt, w') /\
      thread_context w' = (all_eight, PASSIVE_LEVEL, true)).
Proof.
  assert (Hc : calibrated bare_metal (Clock (load_world all_eight)) = true)
    by (vm_compute; reflexivity).
  split; [reflexivity|]. split; [reflexivity|]. split; [exact Hc|].
  split; [reflexivity|]. split.
  - destruct (PerformTests_restores_context bare_metal (load_world all_eight)
                eq_refl) as [Hres [_ Hok]].
    destruct (Hok eq_refl Hc) as [w' Hrun].
    destruct (Hres w' Hrun) as [Ha [Hi He]].
    exists w'. split; [exact Hrun|].
    unfold thread_context. rewrite Ha, Hi, He. reflexivity.
  - destruct (PerformTests_restores_context lookup_refused
                (load_world all_eight) eq_refl) as [Hres [Hfail _]].
    destruct (Hfail eq_refl) as [w' Hrun].
    destruct (Hres w' Hrun) as [Ha [Hi He]].
    exists w'. split; [exact Hrun|].
    unfold thread_context. rewrite Ha, Hi, He. reflexivity.
Defined.

(** C9, as the code has it.  DriverEntry has one return statement: on
    every execution path that returns, the status is STATUS_SUCCESS, and
    the entry point has no failure status.  It returns when the processor
    lookup fails, with testResults untouched, and when the lookup succeeds
    and no probe divides by zero.  When the lookup succeeds and a
    calibration delta is zero, the division faults and DriverEntry returns
    no status. *)
Theorem DriverEntry_returns_success :
  forall (hw : Platform) (dummy1 dummy2 : Z) (w : World),
    (forall status w',
        DriverEntry hw dummy1 dummy2 w = Done (status, w') ->
        status = STATUS_SUCCESS) /\
    (lookup_succeeds hw = false ->
     exists w',
       DriverEntry hw dummy1 dummy2 w = Done (STATUS_SUCCESS, w') /\
       testResults w' = testResults w) /\
    (runs_to_completion hw w = true ->
     exists w', DriverEntry hw dummy1 dummy2 w = Done (STATUS_SUCCESS, w')) /\
    (runs_to_completion hw w = false ->
     DriverEntry hw dummy1 dummy2 w = DivideError).
Proof.
  intros hw dummy1 dummy2 w.
  assert (Hfail : lookup_succeeds hw = false ->
            exists w',
              DriverEntry hw dummy1 dummy2 w = Done (STATUS_SUCCESS, w') /\
              testResults w' = testResults w).
  { intros Hl. eexists.
    rewrite (DriverEntry_lookup_failed hw dummy1 dummy2 w Hl).
    split; reflexivity. }
  split; [|split; [exact Hfail|split]].
  - intros status w' Hrun.
    destruct (lookup_succeeds hw) eqn:Hl.
    + rewrite (DriverEntry_lookup_ok hw dummy1 dummy2 w Hl) in Hrun.
      destruct (calibrated hw (Clock w)); [|discriminate].
      injection Hrun as <- _. reflexivity.
    + rewrite (DriverEntry_lookup_failed hw dummy1 dummy2 w Hl) in Hrun.
      injection Hrun as <- _. reflexivity.
  - unfold runs_to_completion. intros Hrun.
    destruct (lookup_succeeds hw) eqn:Hl.
    + cbn in Hrun. eexists.
      rewrite (DriverEntry_lookup_ok hw dummy1 dummy2 w Hl), Hrun.
      reflexivity.
    + destruct (Hfail eq_refl) as [w' [H _]]. exists w'. exact H.
  - unfold runs_to_completion. intros Hrun.
    destruct (lookup_succeeds hw) eqn:Hl; [|discriminate].
    cbn in Hrun.
    rewrite (DriverEntry_lookup_ok hw dummy1 dummy2 w Hl), Hrun.
    reflexivity.
Qed.

Lemma DriverEntry_returns_success_witness :
  lookup_succeeds lookup_refused = false /\
  runs_to_completion bare_metal (load_world all_eight) = true /\
  runs_to_completion frozen_clock (load_world all_eight) = false /\
  (exists w',
      DriverEntry lookup_refused 0 0 (load_world all_eight)
        = Done (STATUS_SUCCESS, w')) /\
  (exists w',
      DriverEntry bare_metal 0 0 (load_world all_eight)
        = Done (STATUS_SUCCESS, w')) /\
  DriverEntry frozen_clock 0 0 (load_world all_eight) = DivideError.
Proof.
  split; [reflexivity|]. split; [vm_compute; reflexivity|].
  split; [vm_compute; reflexivity|]. split; [|split].
  - destruct (DriverEntry_returns_success lookup_refused 0 0
                (load_world all_eight)) as [_ [Hfail _]].
    destruct (Hfail eq_refl) as [w' [H _]]. exists w'. exact H.
  - destruct (DriverEntry_returns_success bare_metal 0 0
                (load_world all_eight)) as [_ [_ [Hok _]]].
    apply Hok. vm_compute. reflexivity.
  - destruct (DriverEntry_returns_success frozen_clock 0 0
                (load_world all_eight)) as [_ [_ [_ Hdiv]]].
    apply Hdiv. vm_compute. reflexivity.
Defined.

(** C9 as stated fails: on a machine whose counters do not move, the lookup
    succeeds, RdtscTiming divides by zero and DriverEntry returns no
    status. *)
Lemma DriverEntry_frozen_clock_no_status :
  lookup_succeeds frozen_clock = true /\
  calibration_delta frozen_clock Tsc (Clock (load_world all_eight)) = 0 /\
  DriverEntry frozen_clock 0 0 (load_world all_eight) = DivideError /\
  ~ (exists w',
        DriverEntry frozen_clock 0 0 (load_world all_eight)
          = Done (STATUS_SUCCESS, w')).
Proof.
  assert (Hrun : DriverEntry frozen_clock 0 0 (load_world all_eight)
                 = DivideError).
  { rewrite (DriverEntry_lookup_ok frozen_clock 0 0 _ eq_refl).
    replace (calibrated frozen_clock (Clock (load_world all_eight)))
      with false by (vm_compute; reflexivity).
    reflexivity. }
  split; [reflexivity|]. split; [reflexivity|]. split; [exact Hrun|].
  intros [w' H]. rewrite Hrun in H. discriminate.
Qed.

(** * Further properties of the probes *)

Lemma calibration_delta_range (hw : Platform) (c : Counter) (n : N) :
  in_range64 (calibration_delta hw c n).
Proof. apply wrap64_range. Qed.

Lemma count_events_app (p : Event -> bool) (l1 l2 : list Event) :
  count_events p (l1 ++ l2) = count_events p l1 + count_events p l2.
Proof.
  unfold count_events. rewrite filter_app, length_app. lia.
Qed.

Lemma count_loop_events (p : Event -> bool) (c : Counter) (n : nat) :
  count_events p (loop_events c n)
  = Z.of_nat n * count_events p [EvRead c; EvCpuid 0; EvRead c].
Proof.
  induction n as [|n IH].
  - reflexivity.
  - cbn [loop_events]. rewrite count_events_app, IH. lia.
Qed.

Lemma count_probe_events (p : Event -> bool) (c : Counter) :
  count_events p (probe_events c)
  = 25000 * count_events p [EvRead c; EvCpuid 0; EvRead c]
    + count_events p [EvRead c; EvDelay (-10000000); EvRead c].
Proof.
  unfold probe_events. rewrite count_events_app, count_loop_events.
  rewrite Z2Nat.id by lia. reflexivity.
Qed.

Lemma Counter_eqb_refl (c : Counter) : Counter_eqb c c = true.
Proof. destruct c; simpl; [reflexivity|apply Z.eqb_refl]. Qed.

(** X1. A ratio probe that returns has issued, on top of the history it
    found, 50002 reads, all of its own counter, 25000 CPUIDs, all with leaf
    0, and one delay; RdtscTiming reads only the RDTSC instruction and
    TimestampTiming only the TSC register. *)
Theorem ratio_probe_event_count :
  forall (hw : Platform) (w : World),
    (calibration_delta hw Tsc (Clock w) <> 0 ->
     exists w' evs,
       RdtscTiming hw w = Done (tt, w') /\
       History w' = evs ++ History w /\
       Clock w' = (Clock w + 75003)%N /\
       count_events is_read evs = 50002 /\
       count_events (is_read_of Tsc) evs = 50002 /\
       count_events is_cpuid evs = 25000 /\
       count_events (is_cpuid_leaf 0) evs = 25000 /\
       count_events is_delay evs = 1) /\
    (calibration_delta hw (Msr IA32_TIME_STAMP_COUNTER) (Clock w) <> 0 ->
     exists w' evs,
       TimestampTiming hw w = Done (tt, w') /\
       History w' = evs ++ History w /\
       Clock w' = (Clock w + 75003)%N /\
       count_events is_read evs = 50002 /\
       count_events (is_read_of (Msr IA32_TIME_STAMP_COUNTER)) evs = 50002 /\
       count_events is_cpuid evs = 25000 /\
       count_events (is_cpuid_leaf 0) evs = 25000 /\
       count_events is_delay evs = 1).
Proof.
  intros hw w. split; intros Hne; apply Z.eqb_neq in Hne.
  - eexists. exists (probe_events Tsc).
    rewrite RdtscTiming_eq, RdtscClassify_eq, Hne.
    split; [reflexivity|]. project_world.
    split; [reflexivity|].
    split; [rewrite length_probe_events; reflexivity|].
    rewrite !count_probe_events. repeat split.
  - eexists. exists (probe_events (Msr IA32_TIME_STAMP_COUNTER)).
    rewrite TimestampTiming_eq, TimestampClassify_eq, Hne.
    split; [reflexivity|]. project_world.
    split; [reflexivity|].
    split; [rewrite length_probe_events; reflexivity|].
    rewrite !count_probe_events. repeat split.
Qed.

Lemma ratio_probe_event_count_witness :
  calibration_delta bare_metal Tsc (Clock (load_world all_eight)) <> 0 /\
  exists w',
    RdtscTiming bare_metal (load_world all_eight) = Done (tt, w') /\
    Clock w' = 75003%N.
Proof.
  assert (Hne : calibration_delta bare_metal Tsc
                  (Clock (load_world all_eight)) <> 0)
    by (vm_compute; discriminate).
  split; [exact Hne|].
  destruct (ratio_probe_event_count bare_metal (load_world all_eight))
    as [Hr _].
  destruct (Hr Hne) as [w' [evs [Hrun [_ [Hc _]]]]].
  exists w'. split; [exact Hrun|]. rewrite Hc. reflexivity.
Defined.

(** X2. Each probe writes only its own two fields of testResults: whenever
    RdtscTiming, TimestampTiming or AperfTiming returns, the four fields of
    the other two probes, the debug log and the thread's affinity, IRQL and
    interrupt flag are as it found them. *)
Theorem probes_write_only_their_fields :
  forall (hw : Platform) (w w' : World),
    (RdtscTiming hw w = Done (tt, w') ->
     TimestampResult w' = TimestampResult w /\
     AperfResult w' = AperfResult w /\
     DebugLog w' = DebugLog w /\
     thread_context w' = thread_context w) /\
    (TimestampTiming hw w = Done (tt, w') ->
     RdtscResult w' = RdtscResult w /\
     AperfResult w' = AperfResult w /\
     DebugLog w' = DebugLog w /\
     thread_context w' = thread_context w) /\
    (AperfTiming hw w = Done (tt, w') ->
     RdtscResult w' = RdtscResult w /\
     TimestampResult w' = TimestampResult w /\
     DebugLog w' = DebugLog w /\
     thread_context w' = thread_context w).
Proof.
  intros hw w w'. split; [|split]; intros Hrun.
  - rewrite RdtscTiming_eq, RdtscClassify_eq in Hrun.
    destruct (calibration_delta hw Tsc (Clock w) =? 0); [discriminate|].
    injection Hrun as <-.
    unfold RdtscResult, TimestampResult, AperfResult, thread_context.
    project_world. repeat split.
  - rewrite TimestampTiming_eq, TimestampClassify_eq in Hrun.
    destruct (calibration_delta hw (Msr IA32_TIME_STAMP_COUNTER) (Clock w)
              =? 0); [discriminate|].
    injection Hrun as <-.
    unfold RdtscResult, TimestampResult, AperfResult, thread_context.
    project_world. repeat split.
  - rewrite AperfTiming_eq in Hrun.
    injection Hrun as <-.
    unfold RdtscResult, TimestampResult, AperfResult, thread_context.
    project_world. repeat split.
Qed.

Lemma probes_write_only_their_fields_witness :
  exists w',
    AperfTiming aperf_0_15000 (load_world all_eight) = Done (tt, w') /\
    RdtscResult w' = (0, false) /\
    thread_context w' = (all_eight, PASSIVE_LEVEL, true).
Proof.
  pose proof (AperfTiming_eq aperf_0_15000 (load_world all_eight)) as Hrun.
  destruct (proj2 (proj2 (probes_write_only_their_fields _ _ _)) Hrun)
    as [Hr [_ [_ Hc]]].
  eexists. split; [exact Hrun|].
  split; [exact Hr|exact Hc].
Defined.

(** ** What the accumulated total depends on *)

Lemma loop_total_ext (hw1 hw2 : Platform) (c : Counter) (n : nat) :
  forall (clock : N) (total : Z),
    (forall k : N, (clock <= k < clock + 3 * N.of_nat n)%N ->
                   read_value hw1 c k = read_value hw2 c k) ->
    loop_total hw1 c n clock total = loop_total hw2 c n clock total.
Proof.
  induction n as [|n IH]; intros clock total Hagree.
  - reflexivity.
  - cbn [loop_total].
    rewrite (Hagree clock) by lia.
    rewrite (Hagree (clock + 2)%N) by lia.
    apply IH. intros k Hk. apply Hagree. lia.
Qed.

(** X3. The RDTSC probe depends on the platform only through the values
    the RDTSC instruction delivers during the probe's own 75003 events, and
    the TSC-register probe only through the values of that register: two
    platforms that agree there give the same outcome, whatever their other
    counters and their processor enumeration. *)
Theorem ratio_probe_reads_own_counter_only :
  forall (hw1 hw2 : Platform) (w : World),
    ((forall k : N, (Clock w <= k < Clock w + 75003)%N ->
                    counter_value hw1 Tsc k = counter_value hw2 Tsc k) ->
     RdtscTiming hw1 w = RdtscTiming hw2 w) /\
    ((forall k : N, (Clock w <= k < Clock w + 75003)%N ->
                    counter_value hw1 (Msr IA32_TIME_STAMP_COUNTER) k
                    = counter_value hw2 (Msr IA32_TIME_STAMP_COUNTER) k) ->
     TimestampTiming hw1 w = TimestampTiming hw2 w).
Proof.
  intros hw1 hw2 w.
  assert (Hgen : forall c,
            (forall k : N, (Clock w <= k < Clock w + 75003)%N ->
                           counter_value hw1 c k = counter_value hw2 c k) ->
            probe_total hw1 c (Clock w) = probe_total hw2 c (Clock w) /\
            calibration_delta hw1 c (Clock w)
            = calibration_delta hw2 c (Clock w)).
  { intros c Hagree.
    assert (Hread : forall k : N, (Clock w <= k < Clock w + 75003)%N ->
                                  read_value hw1 c k = read_value hw2 c k).
    { intros k Hk. unfold read_value. rewrite (Hagree k Hk). reflexivity. }
    split.
    - unfold probe_total. apply loop_total_ext.
      intros k Hk. apply Hread. lia.
    - unfold calibration_delta.
      rewrite (Hread (Clock w)) by lia.
      rewrite (Hread (Clock w + 2)%N) by lia. reflexivity. }
  split; intros Hagree.
  - rewrite !RdtscTiming_eq.
    destruct (Hgen Tsc Hagree) as [-> ->]. reflexivity.
  - rewrite !TimestampTiming_eq.
    destruct (Hgen (Msr IA32_TIME_STAMP_COUNTER) Hagree) as [-> ->].
    reflexivity.
Qed.

Lemma ratio_probe_reads_own_counter_only_witness :
  (forall k : N, (Clock (load_world all_eight) <= k
                  < Clock (load_world all_eight) + 75003)%N ->
                 counter_value bare_metal Tsc k
                 = counter_value lookup_refused Tsc k) /\
  RdtscTiming bare_metal (load_world all_eight)
  = RdtscTiming lookup_refused (load_world all_eight).
Proof.
  assert (H : forall k : N, (Clock (load_world all_eight) <= k
                             < Clock (load_world all_eight) + 75003)%N ->
                            counter_value bare_metal Tsc k
                            = counter_value lookup_refused Tsc k)
    by (intros k _; reflexivity).
  split; [exact H|].
  exact (proj1 (ratio_probe_reads_own_counter_only
                  bare_metal lookup_refused (load_world all_eight)) H).
Defined.

Lemma loop_total_constant (hw : Platform) (c : Counter) (d : Z) (n : nat) :
  forall (clock : N) (total : Z),
    in_range64 total ->
    (forall i : N, (i < N.of_nat n)%N ->
       sub64 (read_value hw c (clock + 3 * i + 2))
             (read_value hw c (clock + 3 * i)) = d) ->
    loop_total hw c n clock total = wrap64 (total + Z.of_nat n * d).
Proof.
  induction n as [|n IH]; intros clock total Hr Hd.
  - cbn [loop_total]. rewrite Z.add_0_r.
    symmetry. apply wrap64_small. exact Hr.
  - cbn [loop_total].
    assert (H0 := Hd 0%N ltac:(lia)).
    replace (clock + 3 * 0 + 2)%N with (clock + 2)%N in H0 by lia.
    replace (clock + 3 * 0)%N with clock in H0 by lia.
    rewrite H0, IH.
    + unfold add64, wrap64.
      rewrite Zplus_mod_idemp_l. f_equal. lia.
    + apply wrap64_range.
    + intros i Hi.
      replace (clock + 3 + 3 * i + 2)%N with (clock + 3 * (i + 1) + 2)%N
        by lia.
      replace (clock + 3 + 3 * i)%N with (clock + 3 * (i + 1))%N by lia.
      apply Hd. lia.
Qed.

(** The ratio a returning probe stores, with the loop kept folded. *)
Lemma RdtscTiming_done (hw : Platform) (w : World) :
  calibration_delta hw Tsc (Clock w) <> 0 ->
  exists w',
    RdtscTiming hw w = Done (tt, w') /\
    RdtscCalculated (testResults w') = probe_ratio hw Tsc (Clock w).
Proof.
  intros Hne. apply Z.eqb_neq in Hne.
  rewrite RdtscTiming_eq, RdtscClassify_eq, Hne.
  unfold probe_ratio.
  generalize (mul64 100000 (probe_total hw Tsc (Clock w))
              / calibration_delta hw Tsc (Clock w)).
  intros q. eexists. split; reflexivity.
Qed.

Lemma TimestampTiming_done (hw : Platform) (w : World) :
  calibration_delta hw (Msr IA32_TIME_STAMP_COUNTER) (Clock w) <> 0 ->
  exists w',
    TimestampTiming hw w = Done (tt, w') /\
    TimestampCalculated (testResults w')
    = probe_ratio hw (Msr IA32_TIME_STAMP_COUNTER) (Clock w).
Proof.
  intros Hne. apply Z.eqb_neq in Hne.
  rewrite TimestampTiming_eq, TimestampClassify_eq, Hne.
  unfold probe_ratio.
  generalize (mul64 100000
                (probe_total hw (Msr IA32_TIME_STAMP_COUNTER) (Clock w))
              / calibration_delta hw (Msr IA32_TIME_STAMP_COUNTER) (Clock w)).
  intros q. eexists. split; reflexivity.
Qed.

Lemma probe_ratio_constant (hw : Platform) (c : Counter) (n : N) (d : Z) :
  (forall i : N, (i < 25000)%N ->
     sub64 (read_value hw c (n + 3 + 3 * i + 2))
           (read_value hw c (n + 3 + 3 * i)) = d) ->
  2500000000 * d < 2 ^ 64 ->
  probe_ratio hw c n = 2500000000 * d / calibration_delta hw c n.
Proof.
  intros Hd Hfit.
  assert (H0 : 0 <= d).
  { rewrite <- (Hd 0%N) by lia. apply wrap64_range. }
  unfold probe_ratio, probe_total.
  rewrite (loop_total_constant hw c d).
  - rewrite Z2Nat.id by lia.
    rewrite wrap64_small by lia.
    unfold mul64. rewrite wrap64_small by lia.
    f_equal. lia.
  - unfold in_range64. lia.
  - intros i Hi. apply Hd. lia.
Qed.

(** X4. When every round of a ratio probe's loop measures the same cost
    [d], the accumulated total is 25000 * d, and as long as
    100000 * 25000 * d fits in 64 bits the stored ratio is
    2500000000 * d / calibration. *)
Theorem constant_round_cost_ratio :
  forall (hw : Platform) (w : World) (d : Z),
    2500000000 * d < 2 ^ 64 ->
    (calibration_delta hw Tsc (Clock w) <> 0 ->
     (forall i : N, (i < 25000)%N ->
        sub64 (read_value hw Tsc (Clock w + 3 + 3 * i + 2))
              (read_value hw Tsc (Clock w + 3 + 3 * i)) = d) ->
     exists w',
       RdtscTiming hw w = Done (tt, w') /\
       RdtscCalculated (testResults w')
       = 2500000000 * d / calibration_delta hw Tsc (Clock w)) /\
    (calibration_delta hw (Msr IA32_TIME_STAMP_COUNTER) (Clock w) <> 0 ->
     (forall i : N, (i < 25000)%N ->
        sub64 (read_value hw (Msr IA32_TIME_STAMP_COUNTER)
                          (Clock w + 3 + 3 * i + 2))
              (read_value hw (Msr IA32_TIME_STAMP_COUNTER)
                          (Clock w + 3 + 3 * i)) = d) ->
     exists w',
       TimestampTiming hw w = Done (tt, w') /\
       TimestampCalculated (testResults w')
       = 2500000000 * d
         / calibration_delta hw (Msr IA32_TIME_STAMP_COUNTER) (Clock w)).
Proof.
  intros hw w d Hfit. split; intros Hne Hd.
  - destruct (RdtscTiming_done hw w Hne) as [w' [Hrun Hc]].
    exists w'. split; [exact Hrun|]. rewrite Hc.
    exact (probe_ratio_constant hw Tsc (Clock w) d Hd Hfit).
  - destruct (TimestampTiming_done hw w Hne) as [w' [Hrun Hc]].
    exists w'. split; [exact Hrun|]. rewrite Hc.
    exact (probe_ratio_constant hw (Msr IA32_TIME_STAMP_COUNTER)
                                (Clock w) d Hd Hfit).
Qed.

Lemma bare_metal_read (c : Counter) (n : N) :
  (1 < n <= 75004)%N ->
  read_value bare_metal c n = 40 * Z.of_N n + 3000000000.
Proof.
  intros Hn. unfold read_value, bare_metal, counter_value.
  destruct (N.ltb_spec 1 n); [|lia].
  destruct (N.ltb_spec 75004 n); [lia|].
  rewrite Z.add_0_r. apply wrap64_small. lia.
Qed.

Lemma constant_round_cost_ratio_witness :
  2500000000 * 80 < 2 ^ 64 /\
  calibration_delta bare_metal Tsc (Clock (load_world all_eight)) <> 0 /\
  exists w',
    RdtscTiming bare_metal (load_world all_eight) = Done (tt, w') /\
    RdtscCalculated (testResults w') = 66.
Proof.
  assert (Hne : calibration_delta bare_metal Tsc
                  (Clock (load_world all_eight)) <> 0)
    by (vm_compute; discriminate).
  split; [lia|]. split; [exact Hne|].
  destruct (constant_round_cost_ratio bare_metal
              (load_world all_eight) 80) as [Hr _]; [lia|].
  destruct Hr as [w' [Hrun Hc]].
  - exact Hne.
  - intros i Hi. cbn [Clock load_world].
    rewrite !bare_metal_read by lia.
    unfold sub64. rewrite wrap64_small by lia. lia.
  - exists w'. split; [exact Hrun|]. rewrite Hc. reflexivity.
Defined.

Lemma read_value_range (hw : Platform) (c : Counter) (n : N) :
  in_range64 (read_value hw c n).
Proof. apply wrap64_range. Qed.

Lemma loop_total_monotone (hw : Platform) (c : Counter) (n : nat) :
  forall (clock : N) (total : Z),
    (0 < n)%nat ->
    0 <= total ->
    (forall a b : N, (clock <= a)%N -> (a <= b)%N ->
                     (b < clock + 3 * N.of_nat n)%N ->
                     read_value hw c a <= read_value hw c b) ->
    total + (read_value hw c (clock + 3 * N.of_nat n - 1)
             - read_value hw c clock) < 2 ^ 64 ->
    total <= loop_total hw c n clock total
    <= total + (read_value hw c (clock + 3 * N.of_nat n - 1)
                - read_value hw c clock).
Proof.
  induction n as [|n IH]; intros clock total Hpos H0 Hmono Hfit; [lia|].
  assert (H2 := Hmono clock (clock + 2)%N ltac:(lia) ltac:(lia) ltac:(lia)).
  assert (Hstep : add64 total
                    (sub64 (read_value hw c (clock + 2))
                           (read_value hw c clock))
                  = total + (read_value hw c (clock + 2)
                             - read_value hw c clock)).
  { assert (Hl := Hmono (clock + 2)%N (clock + 3 * N.of_nat (S n) - 1)%N
                        ltac:(lia) ltac:(lia) ltac:(lia)).
    unfold add64, sub64.
    rewrite (wrap64_small
               (read_value hw c (clock + 2) - read_value hw c clock))
      by (pose proof (read_value_range hw c (clock + 2));
          pose proof (read_value_range hw c clock);
          unfold in_range64 in *; lia).
    apply wrap64_small. lia. }
  destruct n as [|n].
  - cbn [loop_total]. rewrite Hstep.
    replace (clock + 3 * N.of_nat 1 - 1)%N with (clock + 2)%N in * by lia.
    lia.
  - remember (S n) as m eqn:Em. cbn [loop_total]. rewrite Hstep.
    assert (H3 := Hmono (clock + 2)%N (clock + 3)%N
                        ltac:(lia) ltac:(lia) ltac:(lia)).
    assert (Hl := Hmono (clock + 3)%N (clock + 3 * N.of_nat (S m) - 1)%N
                        ltac:(lia) ltac:(lia) ltac:(lia)).
    replace (clock + 3 * N.of_nat (S m) - 1)%N
      with (clock + 3 + 3 * N.of_nat m - 1)%N in * by lia.
    specialize (IH (clock + 3)%N
                   (total + (read_value hw c (clock + 2)
                             - read_value hw c clock))).
    destruct IH as [IHl IHu].
    + lia.
    + lia.
    + intros a b Ha Hab Hb. apply Hmono; lia.
    + lia.
    + lia.
Qed.

Lemma probe_ratio_bounded (hw : Platform) (c : Counter) (n : N) :
  calibration_delta hw c n <> 0 ->
  (forall a b : N, (n + 3 <= a)%N -> (a <= b)%N -> (b < n + 75003)%N ->
                   read_value hw c a <= read_value hw c b) ->
  100000 * (read_value hw c (n + 75002) - read_value hw c (n + 3)) < 2 ^ 64 ->
  0 <= probe_ratio hw c n
  <= 100000 * (read_value hw c (n + 75002) - read_value hw c (n + 3))
     / calibration_delta hw c n.
Proof.
  intros Hne Hmono Hfit.
  assert (Hcal : 0 < calibration_delta hw c n).
  { pose proof (calibration_delta_range hw c n) as Hr.
    unfold in_range64 in Hr. lia. }
  assert (Hel := Hmono (n + 3)%N (n + 75002)%N
                       ltac:(lia) ltac:(lia) ltac:(lia)).
  unfold probe_ratio, probe_total.
  assert (Hlast : (n + 3 + 3 * N.of_nat (Z.to_nat 25000) - 1)%N
                  = (n + 75002)%N) by lia.
  pose proof (loop_total_monotone hw c (Z.to_nat 25000) (n + 3)%N 0) as Hb.
  rewrite Hlast in Hb.
  destruct Hb as [Hl Hu].
  - lia.
  - lia.
  - intros a b Ha Hab Hb. apply Hmono; lia.
  - lia.
  - revert Hl Hu.
    generalize (loop_total hw c (Z.to_nat 25000) (n + 3) 0).
    intros t Hl Hu.
    unfold mul64. rewrite wrap64_small by lia.
    split.
    + apply Z.div_pos; lia.
    + apply Z.div_le_mono; lia.
Qed.

(** X5. While the counter does not run backwards during the measuring loop,
    the accumulated total is at most the ticks elapsed between the first and
    the last read of the loop; if 100000 times that fits in 64 bits, the
    stored ratio is at most 100000 * elapsed / calibration. *)
Theorem monotone_counter_bounds_ratio :
  forall (hw : Platform) (w : World),
    (calibration_delta hw Tsc (Clock w) <> 0 ->
     (forall a b : N, (Clock w + 3 <= a)%N -> (a <= b)%N ->
                      (b < Clock w + 75003)%N ->
                      read_value hw Tsc a <= read_value hw Tsc b) ->
     100000 * (read_value hw Tsc (Clock w + 75002)
               - read_value hw Tsc (Clock w + 3)) < 2 ^ 64 ->
     exists w',
       RdtscTiming hw w = Done (tt, w') /\
       0 <= RdtscCalculated (testResults w')
       <= 100000 * (read_value hw Tsc (Clock w + 75002)
                    - read_value hw Tsc (Clock w + 3))
          / calibration_delta hw Tsc (Clock w)) /\
    (calibration_delta hw (Msr IA32_TIME_STAMP_COUNTER) (Clock w) <> 0 ->
     (forall a b : N, (Clock w + 3 <= a)%N -> (a <= b)%N ->
                      (b < Clock w + 75003)%N ->
                      read_value hw (Msr IA32_TIME_STAMP_COUNTER) a
                      <= read_value hw (Msr IA32_TIME_STAMP_COUNTER) b) ->
     100000 * (read_value hw (Msr IA32_TIME_STAMP_COUNTER) (Clock w + 75002)
               - read_value hw (Msr IA32_TIME_STAMP_COUNTER) (Clock w + 3))
       < 2 ^ 64 ->
     exists w',
       TimestampTiming hw w = Done (tt, w') /\
       0 <= TimestampCalculated (testResults w')
       <= 100000 * (read_value hw (Msr IA32_TIME_STAMP_COUNTER)
                               (Clock w + 75002)
                    - read_value hw (Msr IA32_TIME_STAMP_COUNTER)
                                 (Clock w + 3))
          / calibration_delta hw (Msr IA32_TIME_STAMP_COUNTER) (Clock w)).
Proof.
  intros hw w. split; intros Hne Hmono Hfit.
  - destruct (RdtscTiming_done hw w Hne) as [w' [Hrun Hc]].
    exists w'. split; [exact Hrun|]. rewrite Hc.
    exact (probe_ratio_bounded hw Tsc (Clock w) Hne Hmono Hfit).
  - destruct (TimestampTiming_done hw w Hne) as [w' [Hrun Hc]].
    exists w'. split; [exact Hrun|]. rewrite Hc.
    exact (probe_ratio_bounded hw (Msr IA32_TIME_STAMP_COUNTER)
                               (Clock w) Hne Hmono Hfit).
Qed.

Lemma monotone_counter_bounds_ratio_witness :
  calibration_delta bare_metal Tsc (Clock (load_world all_eight)) <> 0 /\
  exists w',
    RdtscTiming bare_metal (load_world all_eight) = Done (tt, w') /\
    0 <= RdtscCalculated (testResults w') <= 99.
Proof.
  assert (Hne : calibration_delta bare_metal Tsc
                  (Clock (load_world all_eight)) <> 0)
    by (vm_compute; discriminate).
  split; [exact Hne|].
  destruct (monotone_counter_bounds_ratio bare_metal (load_world all_eight))
    as [Hr _].
  destruct Hr as [w' [Hrun Hb]].
  - exact Hne.
  - cbn [Clock load_world]. intros a b Ha Hab Hb.
    rewrite !bare_metal_read by lia. lia.
  - cbn [Clock load_world]. rewrite !bare_metal_read by lia. lia.
  - exists w'. split; [exact Hrun|].
    cbn [Clock load_world] in Hb.
    rewrite !bare_metal_read in Hb by lia.
    replace (calibration_delta bare_metal Tsc 0) with 3000000080 in Hb
      by (vm_compute; reflexivity).
    replace (100000 * (40 * Z.of_N (0 + 75002) + 3000000000
                       - (40 * Z.of_N (0 + 3) + 3000000000)) / 3000000080)
      with 99 in Hb by (vm_compute; reflexivity).
    exact Hb.
Defined.

(** ** The verdicts *)

(** X6. The strict comparisons on the truncated quotient amount to these
    tests on the 64-bit product [p] of 100000 and the total: RdtscFail is
    set exactly when p >= 201 * calibration and TimestampFail exactly when
    p >= 301 * calibration.  The product is reduced modulo 2^64 before the
    division, so the stored ratio never exceeds the exact ratio: a set fail
    flag implies that 100000 * total / calibration is above the threshold. *)
Theorem fail_flags_in_terms_of_ticks :
  forall (total calibration : Z) (w : World),
    0 <= total ->
    0 < calibration ->
    exists wr wt,
      RdtscClassify total calibration w = Done (tt, wr) /\
      TimestampClassify total calibration w = Done (tt, wt) /\
      (RdtscFail (testResults wr) = true
       <-> 201 * calibration <= (100000 * total) mod 2 ^ 64) /\
      (TimestampFail (testResults wt) = true
       <-> 301 * calibration <= (100000 * total) mod 2 ^ 64) /\
      RdtscCalculated (testResults wr) <= 100000 * total / calibration /\
      (RdtscFail (testResults wr) = true
       -> 100000 * total / calibration > 200) /\
      (TimestampFail (testResults wt) = true
       -> 100000 * total / calibration > 300).
Proof.
  intros total calibration w Htot Hcal.
  assert (Hne : (calibration =? 0) = false) by (apply Z.eqb_neq; lia).
  do 2 eexists.
  rewrite RdtscClassify_eq, TimestampClassify_eq, Hne.
  split; [reflexivity|]. split; [reflexivity|].
  cbn [testResults set_testResults store_rdtsc store_timestamp
       RdtscCalculated RdtscFail TimestampCalculated TimestampFail].
  unfold mul64, wrap64.
  assert (Hp : 0 <= (100000 * total) mod 2 ^ 64 <= 100000 * total).
  { split; [apply Z.mod_pos_bound; lia|apply Z.mod_le; lia]. }
  assert (Hle : (100000 * total) mod 2 ^ 64 / calibration
                <= 100000 * total / calibration)
    by (apply Z.div_le_mono; lia).
  assert (Hiff : forall k, 0 <= k ->
            (((100000 * total) mod 2 ^ 64 / calibration >? k) = true
             <-> (k + 1) * calibration <= (100000 * total) mod 2 ^ 64)).
  { intros k Hk. rewrite Z.gtb_ltb, Z.ltb_lt. split; intros H.
    - destruct (Z_lt_le_dec ((100000 * total) mod 2 ^ 64)
                            ((k + 1) * calibration)) as [Hlt|Hge];
        [|exact Hge].
      assert ((100000 * total) mod 2 ^ 64 / calibration < k + 1)
        by (apply Z.div_lt_upper_bound; lia).
      lia.
    - assert (k + 1 <= (100000 * total) mod 2 ^ 64 / calibration)
        by (apply Z.div_le_lower_bound; lia).
      lia. }
  split; [exact (Hiff 200 ltac:(lia))|].
  split; [exact (Hiff 300 ltac:(lia))|].
  split; [exact Hle|].
  split; intros H; rewrite Z.gtb_ltb, Z.ltb_lt in H; lia.
Qed.

Lemma fail_flags_in_terms_of_ticks_witness :
  0 <= 6030 /\ 0 < 3000000 /\
  exists wr,
    RdtscClassify 6030 3000000 (load_world all_eight) = Done (tt, wr) /\
    RdtscFail (testResults wr) = true.
Proof.
  split; [lia|]. split; [lia|].
  destruct (fail_flags_in_terms_of_ticks 6030 3000000 (load_world all_eight))
    as [wr [wt [Hr [_ [Hf _]]]]]; [lia|lia|].
  exists wr. split; [exact Hr|]. apply Hf. vm_compute. discriminate.
Defined.

Lemma aperf_calculated_low_bits (a b : Z) :
  sub64 (shl64 a 32) (shl64 b 32) = ((a - b) mod 2 ^ 32) * 2 ^ 32.
Proof.
  unfold sub64, shl64, wrap64.
  rewrite !Z.shiftl_mul_pow2 by lia.
  replace (2 ^ 64) with (2 ^ 32 * 2 ^ 32) by reflexivity.
  rewrite !Zmult_mod_distr_r.
  rewrite <- Z.mul_sub_distr_r, Zmult_mod_distr_r.
  rewrite <- Zminus_mod. reflexivity.
Qed.

(** X7. AperfTiming always returns, and its verdict looks only at the low
    32 bits of the two APERF readings: the probe fails, with calculated = 0,
    exactly when the readings agree in their low 32 bits, and otherwise
    passes with a calculated value of at least 2^32. *)
Theorem AperfTiming_compares_low_bits :
  forall (hw : Platform) (w : World),
    exists w',
      AperfTiming hw w = Done (tt, w') /\
      AperfCalculated (testResults w')
      = ((read_value hw (Msr IA32_APERF_MSR) (Clock w + 2)
          - read_value hw (Msr IA32_APERF_MSR) (Clock w)) mod 2 ^ 32)
        * 2 ^ 32 /\
      (AperfFail (testResults w') = true
       <-> read_value hw (Msr IA32_APERF_MSR) (Clock w + 2) mod 2 ^ 32
           = read_value hw (Msr IA32_APERF_MSR) (Clock w) mod 2 ^ 32) /\
      (AperfFail (testResults w') = true
       -> AperfCalculated (testResults w') = 0) /\
      (AperfFail (testResults w') = false
       -> 2 ^ 32 <= AperfCalculated (testResults w')).
Proof.
  intros hw w. eexists. rewrite AperfTiming_eq.
  split; [reflexivity|].
  cbn [testResults set_testResults store_aperf AperfCalculated AperfFail].
  unfold aperf_calculated. rewrite aperf_calculated_low_bits.
  rewrite Z.cong_iff_0.
  set (m := (read_value hw (Msr IA32_APERF_MSR) (Clock w + 2)
             - read_value hw (Msr IA32_APERF_MSR) (Clock w)) mod 2 ^ 32).
  assert (Hm : 0 <= m < 2 ^ 32) by (apply Z.mod_pos_bound; lia).
  split; [reflexivity|].
  split; [rewrite Z.ltb_lt; lia|].
  split; [rewrite Z.ltb_lt; lia|rewrite Z.ltb_ge; lia].
Qed.

Lemma AperfTiming_compares_low_bits_witness :
  exists w',
    AperfTiming frozen_clock (load_world all_eight) = Done (tt, w') /\
    AperfResult w' = (0, true).
Proof.
  destruct (AperfTiming_compares_low_bits frozen_clock (load_world all_eight))
    as [w' [Hrun [_ [Hiff [Hz _]]]]].
  exists w'. split; [exact Hrun|].
  assert (Hf : AperfFail (testResults w') = true)
    by (apply Hiff; reflexivity).
  unfold AperfResult. rewrite (Hz Hf), Hf. reflexivity.
Defined.

(** ** Whole runs *)

Lemma measured_results_fields (a t r : Z) (old : TestResults) :
  store_aperf a (store_timestamp t (store_rdtsc r old))
  = mkTestResults r (r >? 200) t (t >? 300) a (a <? 10000).
Proof. reflexivity. Qed.

Lemma probe_ratio_range (hw : Platform) (c : Counter) (n : N) :
  calibration_delta hw c n <> 0 -> in_range64 (probe_ratio hw c n).
Proof.
  intros Hne. unfold probe_ratio.
  pose proof (calibration_delta_range hw c n) as Hc.
  assert (Hm : in_range64 (mul64 100000 (probe_total hw c n)))
    by (unfold mul64; apply wrap64_range).
  revert Hm. generalize (mul64 100000 (probe_total hw c n)). intros p Hp.
  unfold in_range64 in *. split.
  - apply Z.div_pos; lia.
  - apply Z.div_lt_upper_bound; nia.
Qed.

Lemma calibrated_true (hw : Platform) (n : N) :
  calibrated hw n = true ->
  calibration_delta hw Tsc n <> 0 /\
  calibration_delta hw (Msr IA32_TIME_STAMP_COUNTER) (n + probe_span) <> 0.
Proof.
  unfold calibrated. intros H.
  apply andb_true_iff in H. destruct H as [H1 H2].
  apply negb_true_iff in H1, H2.
  split; apply Z.eqb_neq; assumption.
Qed.

(** X8. After a run of PerformTests in which the lookup succeeds and no
    probe divides by zero, the three calculated values are 64-bit values
    and every fail flag agrees with the calculated value stored beside it:
    RdtscFail with > 200, TimestampFail with > 300, AperfFail with
    < 10000. *)
Theorem completed_run_results_consistent :
  forall (hw : Platform) (w : World),
    lookup_succeeds hw = true ->
    calibrated hw (Clock w) = true ->
    exists w',
      PerformTests hw w = Done (tt, w') /\
      in_range64 (RdtscCalculated (testResults w')) /\
      in_range64 (TimestampCalculated (testResults w')) /\
      in_range64 (AperfCalculated (testResults w')) /\
      RdtscFail (testResults w')
      = (RdtscCalculated (testResults w') >? 200) /\
      TimestampFail (testResults w')
      = (TimestampCalculated (testResults w') >? 300) /\
      AperfFail (testResults w')
      = (AperfCalculated (testResults w') <? 10000).
Proof.
  intros hw w Hl Hc.
  rewrite (PerformTests_lookup_ok hw w Hl), Hc.
  destruct (calibrated_true hw (Clock w) Hc) as [H1 H2].
  pose proof (probe_ratio_range hw Tsc (Clock w) H1) as R1.
  pose proof (probe_ratio_range hw (Msr IA32_TIME_STAMP_COUNTER)
                                (Clock w + probe_span) H2) as R2.
  assert (R3 : in_range64
                 (aperf_calculated hw (Clock w + probe_span + probe_span)))
    by apply wrap64_range.
  unfold measured_results. rewrite measured_results_fields.
  revert R1 R2 R3.
  generalize (probe_ratio hw Tsc (Clock w)).
  generalize (probe_ratio hw (Msr IA32_TIME_STAMP_COUNTER)
                          (Clock w + probe_span)).
  generalize (aperf_calculated hw (Clock w + probe_span + probe_span)).
  intros a t r R1 R2 R3.
  eexists. split; [reflexivity|].
  cbn [testResults set_testResults set_InterruptsEnabled
       RdtscCalculated RdtscFail TimestampCalculated TimestampFail
       AperfCalculated AperfFail].
  repeat split; try apply R1; try apply R2; try apply R3.
Qed.

Lemma completed_run_results_consistent_witness :
  lookup_succeeds bare_metal = true /\
  calibrated bare_metal (Clock (load_world all_eight)) = true /\
  exists w',
    PerformTests bare_metal (load_world all_eight) = Done (tt, w') /\
    in_range64 (RdtscCalculated (testResults w')).
Proof.
  split; [reflexivity|]. split; [vm_compute; reflexivity|].
  destruct (completed_run_results_consistent bare_metal
              (load_world all_eight)) as [w' [Hrun [Hr _]]];
    [reflexivity|vm_compute; reflexivity|].
  exists w'. split; [exact Hrun|exact Hr].
Defined.

(** X9. When the lookup succeeds, a run of PerformTests writes all six
    fields of testResults: its outcome does not depend on what testResults
    held before the call. *)
Theorem completed_run_overwrites_results :
  forall (hw : Platform) (w : World) (previous : TestResults),
    lookup_succeeds hw = true ->
    PerformTests hw (set_testResults previous w) = PerformTests hw w.
Proof.
  intros hw w previous Hl.
  rewrite !(PerformTests_lookup_ok hw _ Hl).
  project_world.
  destruct (calibrated hw (Clock w)); [|reflexivity].
  unfold measured_results. rewrite !measured_results_fields.
  generalize (probe_ratio hw Tsc (Clock w)).
  generalize (probe_ratio hw (Msr IA32_TIME_STAMP_COUNTER)
                          (Clock w + probe_span)).
  generalize (aperf_calculated hw (Clock w + probe_span + probe_span)).
  intros a t r.
  apply (f_equal (fun w' : World => Done (tt, w'))).
  apply World_ext; project_world; reflexivity.
Qed.

Lemma completed_run_overwrites_results_witness :
  lookup_succeeds bare_metal = true /\
  PerformTests bare_metal
    (set_testResults (mkTestResults 999 true 999 true 0 true)
                     (load_world all_eight))
  = PerformTests bare_metal (load_world all_eight).
Proof.
  split; [reflexivity|].
  apply completed_run_overwrites_results. reflexivity.
Defined.

(** X10. A run of PerformTests in which the lookup succeeds and no probe
    divides by zero runs the probes in the order RdtscTiming,
    TimestampTiming, AperfTiming: 150009 hardware events in all, of which
    100006 counter reads, 50001 CPUIDs (one with leaf 1, issued between the
    last two reads) and 2 delays.  It logs nothing. *)
Theorem completed_run_footprint :
  forall (hw : Platform) (w : World),
    lookup_succeeds hw = true ->
    calibrated hw (Clock w) = true ->
    exists w' rdtsc timestamp,
      PerformTests hw w = Done (tt, w') /\
      History w'
      = EvRead (Msr IA32_APERF_MSR) :: EvCpuid 1
          :: EvRead (Msr IA32_APERF_MSR)
          :: timestamp ++ rdtsc ++ History w /\
      count_events is_read rdtsc
      = count_events (is_read_of Tsc) rdtsc /\
      count_events is_read timestamp
      = count_events (is_read_of (Msr IA32_TIME_STAMP_COUNTER)) timestamp /\
      count_events is_read rdtsc = 50002 /\
      count_events is_read timestamp = 50002 /\
      count_events is_cpuid (rdtsc ++ timestamp) = 50000 /\
      count_events (is_cpuid_leaf 0) (rdtsc ++ timestamp) = 50000 /\
      count_events is_delay (rdtsc ++ timestamp) = 2 /\
      Clock w' = (Clock w + 150009)%N /\
      DebugLog w' = DebugLog w.
Proof.
  intros hw w Hl Hc.
  rewrite (PerformTests_lookup_ok hw w Hl), Hc.
  generalize (measured_results hw (Clock w) (testResults w)). intros r.
  eexists. exists (probe_events Tsc), (probe_events (Msr IA32_TIME_STAMP_COUNTER)).
  split; [reflexivity|]. project_world.
  split; [unfold test_events, aperf_events;
          rewrite <- !app_assoc; reflexivity|].
  rewrite !count_events_app, !count_probe_events.
  do 7 (split; [reflexivity|]).
  split; [|reflexivity].
  unfold test_events. rewrite !length_app.
  rewrite !Nat2N.inj_add, !length_probe_events. reflexivity.
Qed.

Lemma completed_run_footprint_witness :
  lookup_succeeds bare_metal = true /\
  calibrated bare_metal (Clock (load_world all_eight)) = true /\
  exists w',
    PerformTests bare_metal (load_world all_eight) = Done (tt, w') /\
    Clock w' = 150009%N /\
    DebugLog w' = [].
Proof.
  split; [reflexivity|]. split; [vm_compute; reflexivity|].
  destruct (completed_run_footprint bare_metal (load_world all_eight))
    as [w' [e1 [e2 [Hrun [_ [_ [_ [_ [_ [_ [_ [_ [Hclock Hlog]]]]]]]]]]]]];
    [reflexivity|vm_compute; reflexivity|].
  exists w'. split; [exact Hrun|]. split; [rewrite Hclock|rewrite Hlog];
    reflexivity.
Defined.

(** X11. When the lookup succeeds and no probe divides by zero, DriverEntry
    logs exactly four lines: the load line and the three result lines, in
    the order RDTSC, MSR TIMESTAMP, MSR APERF.  Each result line carries the
    calculated value and the fail flag that testResults holds after the
    run, and no failure line is logged. *)
Theorem completed_run_log :
  forall (hw : Platform) (dummy1 dummy2 : Z) (w : World),
    lookup_succeeds hw = true ->
    calibrated hw (Clock w) = true ->
    exists w',
      DriverEntry hw dummy1 dummy2 w = Done (STATUS_SUCCESS, w') /\
      DebugLog w'
      = DebugLog w
          ++ [LoadedLine (BuildDate hw);
              ResultLine "RDTSC" (RdtscCalculated (testResults w'))
                         (RdtscFail (testResults w'));
              ResultLine "MSR TIMESTAMP"
                         (TimestampCalculated (testResults w'))
                         (TimestampFail (testResults w'));
              ResultLine "MSR APERF" (AperfCalculated (testResults w'))
                         (AperfFail (testResults w'))] /\
      count_lines is_failure_line (DebugLog w')
      = count_lines is_failure_line (DebugLog w) /\
      count_lines is_result_line (DebugLog w')
      = (count_lines is_result_line (DebugLog w) + 3)%nat.
Proof.
  intros hw dummy1 dummy2 w Hl Hc.
  rewrite (DriverEntry_lookup_ok hw dummy1 dummy2 w Hl), Hc.
  generalize (measured_results hw (Clock w) (testResults w)). intros r.
  eexists. split; [reflexivity|].
  unfold logged, result_lines. project_world.
  split; [reflexivity|].
  unfold count_lines. rewrite !filter_app, !length_app.
  split; [cbn; lia|reflexivity].
Qed.

Lemma completed_run_log_witness :
  lookup_succeeds bare_metal = true /\
  calibrated bare_metal (Clock (load_world all_eight)) = true /\
  exists w',
    DriverEntry bare_metal 0 0 (load_world all_eight)
      = Done (STATUS_SUCCESS, w') /\
    count_lines is_result_line (DebugLog w') = 3%nat /\
    count_lines is_failure_line (DebugLog w') = 0%nat.
Proof.
  split; [reflexivity|]. split; [vm_compute; reflexivity|].
  destruct (completed_run_log bare_metal 0 0 (load_world all_eight))
    as [w' [Hrun [_ [Hf Hr]]]]; [reflexivity|vm_compute; reflexivity|].
  exists w'. split; [exact Hrun|]. split; [exact Hr|exact Hf].
Defined.

(** X12. DriverEntry fails to return exactly when the processor lookup
    succeeds and one of the two calibration deltas is zero; when the lookup
    fails no division is reached. *)
Theorem DriverEntry_divide_error_iff :
  forall (hw : Platform) (dummy1 dummy2 : Z) (w : World),
    DriverEntry hw dummy1 dummy2 w = DivideError
    <-> lookup_succeeds hw = true /\
        (calibration_delta hw Tsc (Clock w) = 0 \/
         calibration_delta hw (Msr IA32_TIME_STAMP_COUNTER)
                           (Clock w + 75003) = 0).
Proof.
  intros hw dummy1 dummy2 w.
  destruct (lookup_succeeds hw) eqn:Hl.
  - rewrite (DriverEntry_lookup_ok hw dummy1 dummy2 w Hl).
    unfold calibrated. fold probe_span.
    destruct (Z.eqb_spec (calibration_delta hw Tsc (Clock w)) 0) as [E1|E1];
      destruct (Z.eqb_spec
                  (calibration_delta hw (Msr IA32_TIME_STAMP_COUNTER)
                                     (Clock w + probe_span)) 0) as [E2|E2];
      cbn [negb andb].
    + split; [intros _; split; [reflexivity|left; exact E1]|reflexivity].
    + split; [intros _; split; [reflexivity|left; exact E1]|reflexivity].
    + split; [intros _; split; [reflexivity|right; exact E2]|reflexivity].
    + split; [discriminate|]. intros [_ [E|E]]; contradiction.
  - rewrite (DriverEntry_lookup_failed hw dummy1 dummy2 w Hl).
    split; [discriminate|]. intros [E _]. discriminate.
Qed.

Lemma DriverEntry_divide_error_iff_witness :
  lookup_succeeds frozen_clock = true /\
  calibration_delta frozen_clock Tsc (Clock (load_world all_eight)) = 0 /\
  DriverEntry frozen_clock 0 0 (load_world all_eight) = DivideError.
Proof.
  split; [reflexivity|]. split; [reflexivity|].
  apply (proj2 (DriverEntry_divide_error_iff frozen_clock 0 0
                  (load_world all_eight))).
  split; [reflexivity|left; reflexivity].
Defined.

Lemma shl64_one (n : Z) : 0 <= n < 64 -> shl64 1 n = 2 ^ n.
Proof.
  intros Hn. unfold shl64.
  rewrite Z.shiftl_mul_pow2, Z.mul_1_l by lia.
  apply wrap64_small. split.
  - apply Z.pow_nonneg. lia.
  - apply Z.pow_lt_mono_r; lia.
Qed.

(** X13. With between 1 and 2^32 - 1 active processors, PerformTests looks
    up the last index, count - 1.  If that lookup succeeds with a processor
    number below 64, the three probes start in a world where the thread's
    affinity mask has the single bit of that processor in its group, the
    IRQL is HIGH_LEVEL and interrupts are disabled; what follows the probes
    enables interrupts and puts back the IRQL and the affinity found at the
    call. *)
Theorem probes_run_isolated :
  forall (hw : Platform) (w : World) (status : NTSTATUS)
         (pn : PROCESSOR_NUMBER),
    1 <= ActiveProcessorCount hw < 2 ^ 32 ->
    ProcessorNumberFromIndex hw (ActiveProcessorCount hw - 1)
      = (status, pn) ->
    NT_SUCCESS status = true ->
    0 <= pnNumber pn < 64 ->
    PerformTests hw w
    = (RdtscTiming hw ;;
       TimestampTiming hw ;;
       AperfTiming hw ;;
       _enable ;;
       KeLowerIrql (Irql w) ;;
       KeRevertToUserGroupAffinityThread (Affinity w))
        (mkWorld (testResults w)
                 (mkGroupAffinity (2 ^ pnNumber pn) (pnGroup pn) (0, 0, 0))
                 HIGH_LEVEL false (DebugLog w) (Clock w) (History w)).
Proof.
  intros hw w status pn Hcount Hlookup Hok Hnum.
  unfold PerformTests, KeQueryActiveProcessorCountEx,
         KeGetProcessorNumberFromIndex.
  unfold bind at 1 2. unfold ret.
  unfold wrap32.
  rewrite (Z.mod_small (ActiveProcessorCount hw)) by lia.
  rewrite (Z.mod_small (ActiveProcessorCount hw - 1)) by lia.
  rewrite Hlookup, Hok. cbn [negb].
  rewrite (shl64_one _ Hnum).
  unfold KeSetSystemGroupAffinityThread, KeRaiseIrql, _disable, modify.
  unfold bind at 1 2 3.
  project_world. reflexivity.
Qed.

Lemma probes_run_isolated_witness :
  1 <= ActiveProcessorCount bare_metal < 2 ^ 32 /\
  PerformTests bare_metal (load_world all_eight)
  = (RdtscTiming bare_metal ;;
     TimestampTiming bare_metal ;;
     AperfTiming bare_metal ;;
     _enable ;;
     KeLowerIrql PASSIVE_LEVEL ;;
     KeRevertToUserGroupAffinityThread all_eight)
      (mkWorld zeroTestResults (mkGroupAffinity 128 0 (0, 0, 0))
               HIGH_LEVEL false [] 0%N []).
Proof.
  split; [cbn; lia|].
  exact (probes_run_isolated bare_metal (load_world all_eight)
           STATUS_SUCCESS (mkProcessorNumber 0 7 0)
           ltac:(cbn; lia) eq_refl eq_refl ltac:(cbn; lia)).
Defined.
